(** * The export command: [RunExport] of pkg/cmd/cli/cmd/export.go

    A shallow embedding of the export pipeline (validate flags, fetch,
    sanitize, aggregate, print) and the properties its specification
    states about it.

    The Go function talks to a number of collaborators that live in other
    packages (the client factory, the resource builder, the exporter, the
    conversion scheme, the printers).  They are kept abstract: each one is
    a field of a record or class below, and every call [RunExport] makes to
    one of them is appended to a trace, so that statements such as "the
    fetch is never performed" are statements about the trace. *)

From stdpp Require Import base option list strings gmap fin_maps functions.

Set Default Proof Using "Type".
Set Warnings "-register-all".

(* ===================================================================== *)
(** ** Errors and results *)

(** Go's [error] values.  [UsageError] is what [cmdutil.UsageError(cmd, msg)]
    builds, [Errorf] what [fmt.Errorf(msg)] builds (every failure reported by
    a collaborator is one of these too), [ErrExportOmit] is the package-level
    sentinel an exporter returns to drop an object, and [Aggregate] is what
    [utilerrors.NewAggregate(errs)] builds from a non-empty slice.  A nil
    [error] is [None : option error]. *)
Inductive error : Type :=
  | UsageError (msg : string)
  | Errorf (msg : string)
  | ErrExportOmit
  | Aggregate (errs : list error).

(** [err == ErrExportOmit] (line 125). *)
Definition is_ErrExportOmit (err : error) : bool :=
  match err with
  | ErrExportOmit => true
  | _ => false
  end.

(** The pair [(value, err)] a fallible Go call returns. *)
Inductive Result (A : Type) : Type :=
  | Ok (a : A)
  | Err (e : error).
Arguments Ok {A} a.
Arguments Err {A} e.

(* ===================================================================== *)
(** ** The command line *)

(** The [*cobra.Command] as [RunExport] sees it: its flag set.  The string
    and the boolean flags are two maps from the flag's name to the value
    given on the command line. *)
Record Command : Type := {
  StringFlags : gmap string string;
  BoolFlags : gmap string bool
}.

(** [cmdutil.GetFlagString] and [cmdutil.GetFlagBool].  A flag that was not
    given has its declared default, which is the empty string or [false] for
    every flag [RunExport] reads (lines 68-72). *)
Definition GetFlagString (cmd : Command) (flag : string) : string :=
  default EmptyString (StringFlags cmd !! flag).

Definition GetFlagBool (cmd : Command) (flag : string) : bool :=
  default false (BoolFlags cmd !! flag).

(** Modelled from the spec: [cmdutil.OutputVersion] is defined in the
    vendored package pkg/kubectl/cmd/util, of which export.go only holds the
    call.  Section 6 (h): "an optional output API version override (defaults
    to the client's configured version)". *)
Definition OutputVersion (cmd : Command) (defaultVersion : string) : string :=
  let outputVersion := GetFlagString cmd "output-version" in
  if (String.length outputVersion =? 0)%nat then defaultVersion
  else outputVersion.

(* ===================================================================== *)
(** ** Objects, infos and the builder *)

(** Objects are handled through pointers: a [loc] is the address of one
    fetched object. *)
Definition loc : Type := positive.

(** [resource.Info]: only its [Object] field is read by [RunExport]. *)
Record Info : Type := { Object : loc }.

Global Instance Info_eq_dec : EqDecision Info.
Proof. solve_decision. Defined.

Section Pipeline.

(** The state of one resource object, and the opaque handles of the
    collaborators. *)
Context {Obj Mapper Typer ClientMapper Printer : Type}.

(** [runtime.Object] values the pipeline hands to the printer: a resource
    object, an [api.List] or a [templateapi.Template]. *)
Inductive runtime_Object : Type :=
  | Resource (o : Obj)
  | List (Items : list runtime_Object)
  | Template (Name : string) (Objects : list runtime_Object).

(** [template.Name = asTemplate] (line 147). *)
Definition set_Name (name : string) (t : runtime_Object) : runtime_Object :=
  match t with
  | Template _ objects => Template name objects
  | _ => t
  end.

(** [restclient.Config]: only [Version] is read. *)
Record Config : Type := { Version : string }.

(** [*clientcmd.Factory], with the four methods [RunExport] calls. *)
Record Factory : Type := {
  ClientConfig : Result Config;
  DefaultNamespace : Result (string * bool);
  Factory_Object : Mapper * Typer;
  ClientMapperForCommand : ClientMapper
}.

(** [resource.Builder]: the selection accumulated by the chained calls of
    lines 103-108. *)
Record Builder : Type := {
  mapper : Mapper;
  typer : Typer;
  clientMapper : ClientMapper;
  namespace : string;
  defaultNamespace : bool;
  allNamespace : bool;
  enforceNamespace : bool;
  paths : list string;
  selector : string;
  resourceArgs : option (bool * list string);
  flatten : bool
}.

Definition NewBuilder (m : Mapper) (t : Typer) (c : ClientMapper) : Builder :=
  {| mapper := m; typer := t; clientMapper := c; namespace := EmptyString;
     defaultNamespace := false; allNamespace := false;
     enforceNamespace := false; paths := []; selector := EmptyString;
     resourceArgs := None; flatten := false |}.

Definition NamespaceParam (ns : string) (b : Builder) : Builder :=
  {| mapper := mapper b; typer := typer b; clientMapper := clientMapper b;
     namespace := ns; defaultNamespace := defaultNamespace b;
     allNamespace := allNamespace b; enforceNamespace := enforceNamespace b;
     paths := paths b; selector := selector b;
     resourceArgs := resourceArgs b; flatten := flatten b |}.

Definition Builder_DefaultNamespace (b : Builder) : Builder :=
  {| mapper := mapper b; typer := typer b; clientMapper := clientMapper b;
     namespace := namespace b; defaultNamespace := true;
     allNamespace := allNamespace b; enforceNamespace := enforceNamespace b;
     paths := paths b; selector := selector b;
     resourceArgs := resourceArgs b; flatten := flatten b |}.

Definition AllNamespaces (all : bool) (b : Builder) : Builder :=
  {| mapper := mapper b; typer := typer b; clientMapper := clientMapper b;
     namespace := namespace b; defaultNamespace := defaultNamespace b;
     allNamespace := all; enforceNamespace := enforceNamespace b;
     paths := paths b; selector := selector b;
     resourceArgs := resourceArgs b; flatten := flatten b |}.

Definition FilenameParam (enforce : bool) (filenames : list string)
    (b : Builder) : Builder :=
  {| mapper := mapper b; typer := typer b; clientMapper := clientMapper b;
     namespace := namespace b; defaultNamespace := defaultNamespace b;
     allNamespace := allNamespace b; enforceNamespace := enforce;
     paths := paths b ++ filenames; selector := selector b;
     resourceArgs := resourceArgs b; flatten := flatten b |}.

Definition SelectorParam (s : string) (b : Builder) : Builder :=
  {| mapper := mapper b; typer := typer b; clientMapper := clientMapper b;
     namespace := namespace b; defaultNamespace := defaultNamespace b;
     allNamespace := allNamespace b; enforceNamespace := enforceNamespace b;
     paths := paths b; selector := s;
     resourceArgs := resourceArgs b; flatten := flatten b |}.

Definition ResourceTypeOrNameArgs (allowEmptySelector : bool)
    (args : list string) (b : Builder) : Builder :=
  {| mapper := mapper b; typer := typer b; clientMapper := clientMapper b;
     namespace := namespace b; defaultNamespace := defaultNamespace b;
     allNamespace := allNamespace b; enforceNamespace := enforceNamespace b;
     paths := paths b; selector := selector b;
     resourceArgs := Some (allowEmptySelector, args); flatten := flatten b |}.

Definition Flatten (b : Builder) : Builder :=
  {| mapper := mapper b; typer := typer b; clientMapper := clientMapper b;
     namespace := namespace b; defaultNamespace := defaultNamespace b;
     allNamespace := allNamespace b; enforceNamespace := enforceNamespace b;
     paths := paths b; selector := selector b;
     resourceArgs := resourceArgs b; flatten := true |}.

(* =================================================================== *)
(** ** Collaborators *)

(** The [Exporter] interface.  [Export(obj, exact)] mutates the object it
    is given in place and returns an error, [ErrExportOmit] or nil: here
    it maps the object's state to its new state and the returned error. *)
Record Exporter : Type := {
  Export : Obj → bool → Obj * option error
}.

(** The vendored packages [RunExport] calls into:
    - [Infos b] is [b.Do().IntoSingular(&one).Infos()]: the fetched infos
      and the value left in [one];
    - [ConvertToVersion] is [kapi.Scheme.ConvertToVersion];
    - [GetPrinter] is [kubectl.GetPrinter] and [PrintObj p result] is
      [p.PrintObj(result, out)]. *)
Class Kube : Type := {
  Infos : Builder → Result (list Info * bool);
  ConvertToVersion : runtime_Object → string → Result runtime_Object;
  GetPrinter : string → string → Result Printer;
  PrintObj : Printer → runtime_Object → option error
}.

(* =================================================================== *)
(** ** The world: the objects in memory and the calls made so far *)

Inductive Call : Type :=
  | CallClientConfig
  | CallDefaultNamespace
  | CallNewBuilder (b : Builder)
  | CallInfos (b : Builder) (ret : Result (list Info * bool))
  | CallExport (obj : loc) (exact : bool) (ret : option error)
  | CallAsVersionedObjects (infos : list Info) (version : string)
  | CallAsVersionedObject (infos : list Info) (forceList : bool)
      (version : string)
  | CallConvertToVersion (o : runtime_Object) (version : string)
  | CallGetPrinter (format templateFile : string)
  | CallPrintObj (p : Printer) (o : runtime_Object).

Record World : Type := {
  heap : loc → Obj;
  trace : list Call
}.

(** A computation that may change the world and may fail.  The world is
    returned in both cases: what was done before a failure stays done. *)
Definition M (A : Type) : Type := World → Result A * World.

Definition ret {A : Type} (a : A) : M A := λ w, (Ok a, w).

Definition fail {A : Type} (e : error) : M A := λ w, (Err e, w).

Definition bind {A B : Type} (m : M A) (k : A → M B) : M B :=
  λ w, match m w with
       | (Ok a, w') => k a w'
       | (Err e, w') => (Err e, w')
       end.

Definition log (c : Call) : M unit :=
  λ w, (Ok tt, {| heap := heap w; trace := trace w ++ [c] |}).

(** [v, err := call; if err != nil { return err }] *)
Definition lift {A : Type} (r : Result A) : M A := λ w, (r, w).

End Pipeline.

Arguments runtime_Object : clear implicits.
Arguments Factory : clear implicits.
Arguments Builder : clear implicits.
Arguments Exporter : clear implicits.
Arguments Export {Obj} _ _ _.
Arguments Kube : clear implicits.
Arguments Call : clear implicits.
Arguments World : clear implicits.
Arguments M : clear implicits.

Declare Scope run_scope.
Delimit Scope run_scope with run.
Notation "'do' x <- m ; k" := (bind m (λ x, k))
  (at level 10, x pattern, m at level 100, k at level 200) : run_scope.
Notation "m ;; k" := (bind m (λ _, k))
  (at level 100, k at level 200, right associativity) : run_scope.

(* ===================================================================== *)
(** ** The pipeline *)

Section Run.

Context {Obj Mapper Typer ClientMapper Printer : Type}.
Context {kube : Kube Obj Mapper Typer ClientMapper Printer}.

Local Abbreviation Factory := (Factory Mapper Typer ClientMapper).
Local Abbreviation Builder := (Builder Mapper Typer ClientMapper).
Local Abbreviation Call := (Call Obj Mapper Typer ClientMapper Printer).
Local Abbreviation World := (World Obj Mapper Typer ClientMapper Printer).
Local Abbreviation M := (M Obj Mapper Typer ClientMapper Printer).
Local Abbreviation runtime_Object := (runtime_Object Obj).

Local Open Scope run_scope.

(** [exporter.Export(info.Object, exact)]: the object behind the pointer
    is replaced by what the exporter made of it. *)
Definition call_Export (exporter : Exporter Obj) (obj : loc) (exact : bool)
    : M (option error) :=
  λ w, let '(o, err) := Export exporter (heap w obj) exact in
       (Ok err, {| heap := <[obj := o]> (heap w);
                   trace := trace w ++ [CallExport obj exact err] |}).

(** One iteration of the loop of lines 123-131, on the two slices the loop
    appends to. *)
Definition sanitize_step (exporter : Exporter Obj) (exact : bool)
    (info : Info) (acc : list Info * list error)
    : M (list Info * list error) :=
  let '(newInfos, errs) := acc in
  do err <- call_Export exporter (Object info) exact;
  match err with
  | Some err =>
      if is_ErrExportOmit err then
        ret (newInfos, errs)                       (* continue *)
      else
        let errs := errs ++ [err] in
        ret (newInfos ++ [info], errs)
  | None => ret (newInfos ++ [info], errs)
  end.

(** [for _, info := range infos { ... }] *)
Fixpoint sanitize_loop (exporter : Exporter Obj) (exact : bool)
    (infos : list Info) (acc : list Info * list error)
    : M (list Info * list error) :=
  match infos with
  | [] => ret acc
  | info :: infos =>
      do acc <- sanitize_step exporter exact info acc;
      sanitize_loop exporter exact infos acc
  end.

(** Lines 120-136: the body of [if !raw { ... }], whose value is the new
    [infos]. *)
Definition sanitize (exporter : Exporter Obj) (exact : bool)
    (infos : list Info) : M (list Info) :=
  do (newInfos, errs) <- sanitize_loop exporter exact infos ([], []);
  if (0 <? length errs)%nat then
    fail (Aggregate errs)
  else
    ret newInfos.

(** Modelled from the spec: [resource.AsVersionedObjects] is defined in the
    vendored package pkg/kubectl/resource, of which export.go only holds the
    call.  Section 4.3: "All paths
    convert every contained document to the requested output API version
    before returning; a conversion failure for any contained document
    fails the whole aggregate operation." *)
Fixpoint convert_all (h : loc → Obj) (infos : list Info) (version : string)
    : Result (list runtime_Object) :=
  match infos with
  | [] => Ok []
  | info :: infos =>
      match ConvertToVersion (Resource (h (Object info))) version with
      | Err e => Err e
      | Ok converted =>
          match convert_all h infos version with
          | Err e => Err e
          | Ok objects => Ok (converted :: objects)
          end
      end
  end.

Definition AsVersionedObjects (infos : list Info) (version : string)
    : M (list runtime_Object) :=
  log (CallAsVersionedObjects infos version);;
  λ w, (convert_all (heap w) infos version, w).

(** Modelled from the spec: [resource.AsVersionedObject] is defined in the
    vendored package pkg/kubectl/resource, of which export.go only holds the
    call.  Section 4.3, List: "if
    there is exactly one surviving document and the caller indicates a
    singular match was requested, return that document directly as a
    single object (not wrapped in a list) [...] Otherwise wrap all
    surviving documents into an ordered list container, preserving fetch
    order."  The caller indicates a singular match by passing [false] for
    [forceList] (line 153 passes [!one]). *)
Definition AsVersionedObject (infos : list Info) (forceList : bool)
    (version : string) : M runtime_Object :=
  log (CallAsVersionedObject infos forceList version);;
  λ w, match convert_all (heap w) infos version with
       | Err e => (Err e, w)
       | Ok objects =>
           match objects with
           | [object] =>
               if forceList then (Ok (List objects), w) else (Ok object, w)
           | _ => (Ok (List objects), w)
           end
       end.

Definition call_ConvertToVersion (o : runtime_Object) (version : string)
    : M runtime_Object :=
  log (CallConvertToVersion o version);;
  lift (ConvertToVersion o version).

(** Lines 138-158: the value of [result]. *)
Definition aggregate (asTemplate : string) (infos : list Info) (one : bool)
    (outputVersion : string) : M runtime_Object :=
  if (0 <? String.length asTemplate)%nat then
    do objects <- AsVersionedObjects infos outputVersion;
    let template := Template EmptyString objects in
    let template := set_Name asTemplate template in
    do result <- call_ConvertToVersion template outputVersion;
    ret result
  else
    do object <- AsVersionedObject infos (negb one) outputVersion;
    ret object.

(** Lines 160-173: choose the output format and print. *)
Definition print (cmd : Command) (result : runtime_Object) : M unit :=
  (* use YAML as the default format *)
  let outputFormat := GetFlagString cmd "output" in
  let templateFile := GetFlagString cmd "template" in
  let outputFormat :=
    if (String.length outputFormat =? 0)%nat
       && negb (String.length templateFile =? 0)%nat
    then "template" else outputFormat in
  let outputFormat :=
    if (String.length outputFormat =? 0)%nat then "yaml" else outputFormat in
  log (CallGetPrinter outputFormat templateFile);;
  do p <- lift (GetPrinter outputFormat templateFile);
  log (CallPrintObj p result);;
  match PrintObj p result with
  | Some err => fail err
  | None => ret tt
  end.

Definition RunExport (f : Factory) (exporter : Exporter Obj) (cmd : Command)
    (args : list string) (filenames : list string) : M unit :=
  let selector := GetFlagString cmd "selector" in
  let allNamespaces := GetFlagBool cmd "all-namespaces" in
  let exact := GetFlagBool cmd "exact" in
  let asTemplate := GetFlagString cmd "as-template" in
  let raw := GetFlagBool cmd "raw" in
  if exact && raw then
    fail (UsageError "--exact and --raw may not both be specified")
  else
    log CallClientConfig;;
    do clientConfig <- lift (ClientConfig f);
    let outputVersion := OutputVersion cmd (Version clientConfig) in
    log CallDefaultNamespace;;
    do (cmdNamespace, explicit) <- lift (DefaultNamespace f);
    let '(mapper, typer) := Factory_Object f in
    let b :=
      Flatten
        (ResourceTypeOrNameArgs true args
          (SelectorParam selector
            (FilenameParam explicit filenames
              (AllNamespaces allNamespaces
                (Builder_DefaultNamespace
                  (NamespaceParam cmdNamespace
                    (NewBuilder mapper typer (ClientMapperForCommand f)))))))) in
    log (CallNewBuilder b);;
    log (CallInfos b (Infos b));;
    do (infos, one) <- lift (Infos b);
    if (length infos =? 0)%nat then
      fail (Errorf "no resources found - nothing to export")
    else
      do infos <-
        (if negb raw then sanitize exporter exact infos else ret infos);
      do result <- aggregate asTemplate infos one outputVersion;
      print cmd result.

End Run.

(* ===================================================================== *)
(** ** What the sanitize pass computes, call by call *)

Section SanitizePass.

Context {Obj : Type}.

(** The errors returned by the successive [Export] calls of the pass, in
    the order of the calls.  Each call sees the objects as the calls
    before it left them. *)
Fixpoint Export_results (exporter : Exporter Obj) (exact : bool)
    (infos : list Info) (h : loc → Obj) : list (option error) :=
  match infos with
  | [] => []
  | info :: infos =>
      let '(o, err) := Export exporter (h (Object info)) exact in
      err :: Export_results exporter exact infos (<[Object info := o]> h)
  end.

(** The objects after the pass. *)
Fixpoint heap_after (exporter : Exporter Obj) (exact : bool)
    (infos : list Info) (h : loc → Obj) : loc → Obj :=
  match infos with
  | [] => h
  | info :: infos =>
      heap_after exporter exact infos
        (<[Object info := (Export exporter (h (Object info)) exact).1]> h)
  end.

(** The three outcomes of one call: nil, the skip signal, a failure. *)
Definition is_nil (r : option error) : bool :=
  match r with
  | None => true
  | Some _ => false
  end.

Definition is_skip (r : option error) : bool :=
  match r with
  | Some err => is_ErrExportOmit err
  | None => false
  end.

Definition failure (r : option error) : option error :=
  match r with
  | Some err => if is_ErrExportOmit err then None else Some err
  | None => None
  end.

(** The failures among the results, in the order of the calls. *)
Definition failures (rs : list (option error)) : list error :=
  omap failure rs.

(** The infos whose call had an outcome accepted by [keep], in the order
    of the calls. *)
Definition select (keep : option error → bool) (infos : list Info)
    (rs : list (option error)) : list Info :=
  (filter (λ p : Info * option error, keep p.2 = true) (zip infos rs)).*1.

End SanitizePass.

(** The [Export] calls of a pass, as they appear in the trace. *)
Definition export_calls {Obj Mapper Typer ClientMapper Printer : Type}
    (exact : bool) (infos : list Info) (rs : list (option error))
    : list (Call Obj Mapper Typer ClientMapper Printer) :=
  zip_with (λ info r, CallExport (Object info) exact r) infos rs.

(** The kinds of calls the statements below tell apart. *)
Definition is_CallExport {Obj Mapper Typer ClientMapper Printer : Type}
    (c : Call Obj Mapper Typer ClientMapper Printer) : bool :=
  match c with
  | CallExport _ _ _ => true
  | _ => false
  end.

Definition is_fetch {Obj Mapper Typer ClientMapper Printer : Type}
    (c : Call Obj Mapper Typer ClientMapper Printer) : bool :=
  match c with
  | CallNewBuilder _ | CallInfos _ _ => true
  | _ => false
  end.

Definition is_aggregation {Obj Mapper Typer ClientMapper Printer : Type}
    (c : Call Obj Mapper Typer ClientMapper Printer) : bool :=
  match c with
  | CallAsVersionedObjects _ _ | CallAsVersionedObject _ _ _
  | CallConvertToVersion _ _ => true
  | _ => false
  end.

Definition is_output {Obj Mapper Typer ClientMapper Printer : Type}
    (c : Call Obj Mapper Typer ClientMapper Printer) : bool :=
  match c with
  | CallGetPrinter _ _ | CallPrintObj _ _ => true
  | _ => false
  end.

(** What the fetch returned: the result recorded with the first call of
    [Infos] in a trace. *)
Definition fetched {Obj Mapper Typer ClientMapper Printer : Type}
    (t : list (Call Obj Mapper Typer ClientMapper Printer))
    : option (Result (list Info * bool)) :=
  head (omap (λ c, match c with
                   | CallInfos _ ret => Some ret
                   | _ => None
                   end) t).

(** What was handed to the aggregation: the infos passed to the first call
    of [AsVersionedObjects] or [AsVersionedObject] in a trace. *)
Definition aggregated {Obj Mapper Typer ClientMapper Printer : Type}
    (t : list (Call Obj Mapper Typer ClientMapper Printer))
    : option (list Info) :=
  head (omap (λ c, match c with
                   | CallAsVersionedObjects infos _
                   | CallAsVersionedObject infos _ _ => Some infos
                   | _ => None
                   end) t).

(** The world an invocation starts in: the objects the cluster holds, and
    no call made yet. *)
Definition init {Obj Mapper Typer ClientMapper Printer : Type}
    (h : loc → Obj) : World Obj Mapper Typer ClientMapper Printer :=
  {| heap := h; trace := [] |}.

(* ===================================================================== *)
(** ** The field sanitizer behind the [Exporter] interface *)

Module Sanitizer.

(** Section 3, ExportPolicy. *)
Inductive ExportPolicy : Type := Default | Exact | Raw.

Global Instance ExportPolicy_eq_dec : EqDecision ExportPolicy.
Proof. solve_decision. Defined.

(** Section 3, ResourceDocument: a kind, an API version, and a tree of
    fields, kept as the map from the path of each leaf ("metadata",
    "resourceVersion") to its value. *)
Record ResourceDocument : Type := {
  kind : string;
  apiVersion : string;
  fields : gmap (list string) string
}.

(** Section 4.1: [Sanitize(doc, policy) -> void | SkipSignal | error]. *)
Inductive Outcome : Type :=
  | Done
  | SkipSignal
  | Failure (e : error).

(** One clearing routine.  Which instances it drops, on which it fails and
    which paths it clears is the per-kind table that section 9 leaves to
    the target system.  The paths to clear may depend on the document's
    API version and on the policy. *)
Record Routine : Type := {
  skips : ResourceDocument → bool;
  fails : ResourceDocument → option error;
  clears : string → ExportPolicy → list string → bool
}.

(** Clearing removes every leaf whose path is selected. *)
Definition clear (selected : list string → bool) (doc : ResourceDocument)
    : ResourceDocument :=
  {| kind := kind doc;
     apiVersion := apiVersion doc;
     fields :=
       filter (λ kv : list string * string, selected kv.1 = false)
         (fields doc) |}.

(** Modelled from the spec: the exporter that implements [Export] (the
    [defaultExporter] of line 53) is defined in another file of the package;
    export.go only holds the call through the interface.
    Section 4.1: "the sanitizer dispatches on the document's kind to a
    kind-specific clearing routine; unknown kinds fall back to a generic
    routine"; "a routine may signal that this particular document
    instance should be dropped entirely"; section 3: "Raw means skip
    sanitation entirely".  The result is the document as the call leaves
    it, and the outcome. *)
Definition Sanitize (registry : gmap string Routine) (generic : Routine)
    (doc : ResourceDocument) (policy : ExportPolicy)
    : ResourceDocument * Outcome :=
  match policy with
  | Raw => (doc, Done)
  | _ =>
      let routine := default generic (registry !! kind doc) in
      if skips routine doc then (doc, SkipSignal)
      else
        match fails routine doc with
        | Some e => (doc, Failure e)
        | None => (clear (clears routine (apiVersion doc) policy) doc, Done)
        end
  end.

(** The sanitizer as an [Exporter]: [exact] selects the policy, the skip
    signal is [ErrExportOmit]. *)
Definition exporter (registry : gmap string Routine) (generic : Routine)
    : Exporter ResourceDocument :=
  {| Export := λ doc exact,
       let '(doc, outcome) :=
         Sanitize registry generic doc (if exact then Exact else Default) in
       (doc, match outcome with
             | Done => None
             | SkipSignal => Some ErrExportOmit
             | Failure e => Some e
             end) |}.

(** A table with the two kinds of the end-to-end scenarios of section 8:
    a service loses its resource version and, unless the policy is
    [Exact], its assigned address; generated token secrets are dropped. *)
Definition service_routine : Routine :=
  {| skips := λ _, false;
     fails := λ _, None;
     clears := λ _ policy path,
       bool_decide (path = ["metadata"; "resourceVersion"])
       || (bool_decide (policy = Default)
           && bool_decide (path = ["spec"; "generatedIP"])) |}.

Definition secret_routine : Routine :=
  {| skips := λ doc,
       bool_decide (fields doc !! ["type"] = Some "service-account-token");
     fails := λ _, None;
     clears := λ _ _ path,
       bool_decide (path = ["metadata"; "resourceVersion"]) |}.

Definition generic_routine : Routine :=
  {| skips := λ _, false;
     fails := λ _, None;
     clears := λ _ _ path,
       bool_decide (path = ["metadata"; "resourceVersion"])
       || bool_decide (path = ["metadata"; "uid"])
       || bool_decide (path = ["metadata"; "creationTimestamp"])
       || bool_decide (take 1 path = ["status"]) |}.

Definition the_registry : gmap string Routine :=
  {[ "Service" := service_routine; "Secret" := secret_routine ]}.

Definition a_service : ResourceDocument :=
  {| kind := "Service"; apiVersion := "v1";
     fields := {[ ["metadata"; "name"] := "a";
                  ["metadata"; "resourceVersion"] := "123";
                  ["spec"; "generatedIP"] := "10.0.0.5" ]} |}.

End Sanitizer.

(* ===================================================================== *)
(** ** A small cluster to run the pipeline on *)

Module Demo.

Record object : Type := {
  kind : string;
  name : string;
  resourceVersion : string;
  clusterIP : string
}.

Definition service : object :=
  {| kind := "Service"; name := "a"; resourceVersion := "123";
     clusterIP := "10.0.0.5" |}.
Definition token : object :=
  {| kind := "Secret"; name := "default-token"; resourceVersion := "7";
     clusterIP := EmptyString |}.
Definition broken (n : string) : object :=
  {| kind := "Broken"; name := n; resourceVersion := "9";
     clusterIP := EmptyString |}.
Definition config : object :=
  {| kind := "ConfigMap"; name := "c"; resourceVersion := "42";
     clusterIP := EmptyString |}.

(** An exporter that drops secrets, fails on the kind "Broken", and
    otherwise clears the resource version and, unless [exact], the
    cluster IP. *)
Definition export (o : object) (exact : bool) : object * option error :=
  if String.eqb (kind o) "Secret" then (o, Some ErrExportOmit)
  else if String.eqb (kind o) "Broken" then
    (o, Some (Errorf ("cannot export " ++ name o)))
  else
    ({| kind := kind o; name := name o; resourceVersion := EmptyString;
        clusterIP := if exact then clusterIP o else EmptyString |}, None).

Definition exporter : Exporter object := {| Export := export |}.

Definition cluster (l : loc) : object :=
  match l with
  | 1%positive => service
  | 2%positive => token
  | 3%positive => broken "b1"
  | 4%positive => broken "b2"
  | _ => config
  end.

Definition info (l : positive) : Info := {| Object := l |}.

(** The fetch: what is selected depends on the resource arguments only. *)
Definition selects (b : Builder unit unit unit) (arg : string) : bool :=
  bool_decide (snd <$> resourceArgs b = Some [arg]).

Definition fetch (b : Builder unit unit unit) : Result (list Info * bool) :=
  if selects b "svc/a" then Ok ([info 1], true)
  else if selects b "svc" then Ok ([info 1], false)
  else if selects b "svc,secret,cm" then Ok ([info 1; info 2; info 5], false)
  else if selects b "broken,svc" then Ok ([info 3; info 1; info 4], false)
  else if selects b "forbidden" then Err (Errorf "forbidden")
  else Ok ([], false).

Definition kube : Kube object unit unit unit string :=
  {| Infos := fetch;
     ConvertToVersion := λ o _, Ok o;
     GetPrinter := λ format _, Ok format;
     PrintObj := λ _ _, None |}.

Definition factory : Factory unit unit unit :=
  {| ClientConfig := Ok {| Version := "v1" |};
     DefaultNamespace := Ok ("default", false);
     Factory_Object := (tt, tt);
     ClientMapperForCommand := tt |}.

Definition command (strings : list (string * string))
    (bools : list (string * bool)) : Command :=
  {| StringFlags := list_to_map strings; BoolFlags := list_to_map bools |}.

Definition world : World object unit unit unit string := init cluster.

Definition run (cmd : Command) (args : list string) :=
  RunExport (kube := kube) factory exporter cmd args [] world.

(** Some command lines. *)
Definition plain : Command := command [] [].
Definition exact_raw : Command :=
  command [] [("exact", true); ("raw", true)].
Definition raw_template : Command :=
  command [("as-template", "x")] [("raw", true)].
Definition exact_only : Command := command [] [("exact", true)].
Definition with_template_file : Command :=
  command [("template", "t.tpl")] [].

End Demo.


(* ===================================================================== *)
(** ** The stages of a run *)

(** The stage of the pipeline a call belongs to, in the order of the
    statements of [RunExport]. *)
Definition phase {Obj Mapper Typer ClientMapper Printer : Type}
    (c : Call Obj Mapper Typer ClientMapper Printer) : nat :=
  match c with
  | CallClientConfig => 0
  | CallDefaultNamespace => 1
  | CallNewBuilder _ => 2
  | CallInfos _ _ => 3
  | CallExport _ _ _ => 4
  | CallAsVersionedObjects _ _ | CallAsVersionedObject _ _ _ => 5
  | CallConvertToVersion _ _ => 6
  | CallGetPrinter _ _ => 7
  | CallPrintObj _ _ => 8
  end.

(** Two calls are in order when the first belongs to an earlier stage than
    the second, or when both are [Export] calls: the loop of the sanitize
    pass is the only stage that makes more than one call. *)
Definition in_order {Obj Mapper Typer ClientMapper Printer : Type}
    (c c' : Call Obj Mapper Typer ClientMapper Printer) : Prop :=
  phase c < phase c' ∨ (phase c = 4 ∧ phase c' = 4).

(** The API version an aggregation call converts to. *)
Definition call_version {Obj Mapper Typer ClientMapper Printer : Type}
    (c : Call Obj Mapper Typer ClientMapper Printer) : option string :=
  match c with
  | CallAsVersionedObjects _ version | CallAsVersionedObject _ _ version
  | CallConvertToVersion _ version => Some version
  | _ => None
  end.

(** The calls up to the fetch. *)
Definition calls_to_fetch {Obj Mapper Typer ClientMapper Printer : Type}
    (b : Builder Mapper Typer ClientMapper)
    (ret : Result (list Info * bool))
    : list (Call Obj Mapper Typer ClientMapper Printer) :=
  [CallClientConfig; CallDefaultNamespace; CallNewBuilder b; CallInfos b ret].

(** The command line [cmd] with the deprecated flag [--all] given the value
    [all] (line 75). *)
Definition with_all (all : bool) (cmd : Command) : Command :=
  {| StringFlags := StringFlags cmd;
     BoolFlags := <["all" := all]> (BoolFlags cmd) |}.

(* ===================================================================== *)
(** ** The helpers of test/e2e/apimachinery/crd_publish_openapi.go *)

Module CRD.

Section Schema.

(** [spec.Schema], as far as these helpers look into it: the map of its
    properties, the map of its vendor extensions, and the rest.  The type of
    a property, of an extension value and of the rest are left open. *)
Context {Property Extension Rest : Type}.

Record Schema : Type := {
  Properties : gmap string Property;
  Extensions : gmap string Extension;
  rest : Rest
}.

(** [spec.Swagger], as far as these helpers look into it:
    [SwaggerProps.Definitions]. *)
Record Swagger : Type := {
  Definitions : gmap string Schema
}.

(** [dropDefaults] (lines 276-281).  Go's [delete] does nothing when the key
    is absent or the map is nil. *)
Definition dropDefaults (s : Schema) : Schema :=
  {| Properties :=
       delete "kind" (delete "apiVersion" (delete "metadata" (Properties s)));
     Extensions := delete "x-kubernetes-group-version-kind" (Extensions s);
     rest := rest s |}.

(** The double quote that the messages put around the name. *)
Definition dquote : string := String (Ascii.ascii_of_nat 34) EmptyString.

(** The server and the libraries the polling functions call:
    - [DoRaw] is [c.CoreV1().RESTClient().Get().AbsPath("openapi",
      "v2").DoRaw()], the answer of the server at the time of the call;
    - [Unmarshal] is [json.Unmarshal] into a [spec.Swagger];
    - [DeepEqual] is [apiequality.Semantic.DeepEqual];
    - [format_v] is what [fmt.Sprintf] prints for a schema under [%v]. *)
Class Server : Type := {
  DoRaw : Result (list Byte.byte);
  Unmarshal : list Byte.byte → Result Swagger;
  DeepEqual : Schema → Schema → bool;
  format_v : Schema → string
}.

(** The condition polled by [waitForDefinition] (lines 204-225).  It
    assigns the captured variable [lastMsg]: the condition maps its value
    before the call to the returned pair and its value after the call. *)
Definition definition_served `{Server} (name : string) (expect : Schema)
    (lastMsg : string) : (bool * option error) * string :=
  match DoRaw with
  | Err err => ((false, Some err), lastMsg)
  | Ok bs =>
      match Unmarshal bs with
      | Err err => ((false, Some err), lastMsg)
      | Ok spec =>
          match Definitions spec !! name with
          | None =>
              let lastMsg :=
                "spec.SwaggerProps.Definitions[" +:+ dquote +:+ name +:+ dquote
                +:+ "] not found" in
              ((false, None), lastMsg)
          | Some d =>
              (* drop properties and extension that we added *)
              let d := dropDefaults d in
              if negb (DeepEqual expect d) then
                let lastMsg :=
                  "spec.SwaggerProps.Definitions[" +:+ dquote +:+ name
                  +:+ dquote +:+ "] not match; expect: " +:+ format_v expect
                  +:+ ", actual: " +:+ format_v d in
                ((false, None), lastMsg)
              else ((true, None), lastMsg)
          end
      end
  end.

(** The condition polled by [waitForDefinitionCleanup] (lines 234-249). *)
Definition definition_removed `{Server} (name : string) (lastMsg : string)
    : (bool * option error) * string :=
  match DoRaw with
  | Err err => ((false, Some err), lastMsg)
  | Ok bs =>
      match Unmarshal bs with
      | Err err => ((false, Some err), lastMsg)
      | Ok spec =>
          match Definitions spec !! name with
          | Some _ =>
              let lastMsg :=
                "spec.SwaggerProps.Definitions[" +:+ dquote +:+ name +:+ dquote
                +:+ "] still exists" in
              ((false, None), lastMsg)
          | None => ((true, None), lastMsg)
          end
      end
  end.

End Schema.

Arguments Schema : clear implicits.
Arguments Swagger : clear implicits.
Arguments Server : clear implicits.

(** A served document to run the conditions on: one definition, with the
    three properties and the extension the server adds. *)
Definition foo : Schema string string string :=
  {| Properties := {[ "spec" := "object" ]};
     Extensions := ∅;
     rest := "Foo CRD for Testing" |}.

Definition served_foo : Schema string string string :=
  {| Properties := {[ "spec" := "object"; "metadata" := "ObjectMeta";
                      "apiVersion" := "string"; "kind" := "string" ]};
     Extensions := {[ "x-kubernetes-group-version-kind" := "Foo" ]};
     rest := "Foo CRD for Testing" |}.

Definition schema_eqb (a b : Schema string string string) : bool :=
  bool_decide (Properties a = Properties b)
  && bool_decide (Extensions a = Extensions b)
  && bool_decide (rest a = rest b).

Definition serving (definitions : gmap string (Schema string string string))
    : Server string string string :=
  {| DoRaw := Ok [];
     Unmarshal := λ _, Ok {| Definitions := definitions |};
     DeepEqual := schema_eqb;
     format_v := rest |}.

End CRD.

(* ===================================================================== *)
(** ** More runs on the small cluster *)

Module Scenario.

(** A factory without a usable client configuration. *)
Definition no_config : Factory unit unit unit :=
  {| ClientConfig := Err (Errorf "no configuration");
     DefaultNamespace := Ok ("default", false);
     Factory_Object := (tt, tt);
     ClientMapperForCommand := tt |}.

(** A cluster in which every selection finds the token secret only. *)
Definition only_secrets : Kube Demo.object unit unit unit string :=
  {| Infos := λ _, Ok ([Demo.info 2], false);
     ConvertToVersion := λ o _, Ok o;
     GetPrinter := λ format _, Ok format;
     PrintObj := λ _ _, None |}.

Definition as_template : Command := Demo.command [("as-template", "x")] [].

(** The service of the cluster as the exporter leaves it. *)
Definition exported_service : Demo.object :=
  {| Demo.kind := "Service"; Demo.name := "a";
     Demo.resourceVersion := EmptyString; Demo.clusterIP := EmptyString |}.

End Scenario.

(* ===================================================================== *)
(** * Properties *)

(** ** The sanitize pass *)

Section SanitizeFacts.

Context {Obj Mapper Typer ClientMapper Printer : Type}.

Local Abbreviation World := (World Obj Mapper Typer ClientMapper Printer).
Local Abbreviation M := (M Obj Mapper Typer ClientMapper Printer).

Implicit Types (exporter : Exporter Obj) (exact : bool) (w : World).
Implicit Types (infos newInfos : list Info) (errs : list error).
Implicit Types (rs : list (option error)).

Local Arguments failures : simpl never.
Local Arguments select : simpl never.
Local Arguments export_calls : simpl never.

Lemma select_nil keep rs : select keep [] rs = [].
Proof. done. Qed.

Lemma select_cons keep info infos r rs :
  select keep (info :: infos) (r :: rs) =
    (if keep r then [info] else []) ++ select keep infos rs.
Proof.
  unfold select. simpl. rewrite filter_cons. simpl.
  destruct (keep r); by case_decide.
Qed.

Lemma failures_cons r rs :
  failures (r :: rs) = option_list (failure r) ++ failures rs.
Proof. unfold failures. simpl. by destruct (failure r). Qed.

Lemma Export_results_length exporter exact infos h :
  length (Export_results exporter exact infos h) = length infos.
Proof.
  revert h. induction infos as [|info infos IH]; intros h; simpl; [done|].
  destruct (Export exporter (h (Object info)) exact) as [o err]. simpl.
  by rewrite IH.
Qed.

(** The loop, run from any value of its two slices: it appends the infos
    whose call did not return the skip signal, and the failures. *)
Lemma sanitize_loop_run exporter exact infos newInfos errs w :
  let rs := Export_results exporter exact infos (heap w) in
  sanitize_loop exporter exact infos (newInfos, errs) w =
    (Ok (newInfos ++ select (λ r, negb (is_skip r)) infos rs,
         errs ++ failures rs),
     {| heap := heap_after exporter exact infos (heap w);
        trace := trace w ++ export_calls exact infos rs |}).
Proof.
  revert newInfos errs w.
  induction infos as [|info infos IH]; intros newInfos errs w; simpl.
  - unfold ret. rewrite !app_nil_r. by destruct w.
  - unfold bind at 1, sanitize_step, bind, call_Export.
    destruct (Export exporter (heap w (Object info)) exact) as [o err] eqn:HE.
    simpl. rewrite select_cons, failures_cons.
    unfold export_calls. simpl. fold (export_calls (Obj := Obj)
      (Mapper := Mapper) (Typer := Typer) (ClientMapper := ClientMapper)
      (Printer := Printer) exact infos).
    destruct err as [err|]; simpl.
    + destruct (is_ErrExportOmit err); simpl; unfold ret;
        rewrite IH; simpl; by rewrite <- ?app_assoc.
    + unfold ret. rewrite IH. simpl. by rewrite <- ?app_assoc.
Qed.

Lemma failures_nil_iff rs :
  failures rs = [] ↔ Forall (λ r, failure r = None) rs.
Proof.
  induction rs as [|r rs IH]; [by split; constructor|].
  rewrite failures_cons. split.
  - intros [Hr Hrs]%app_eq_nil. apply Forall_cons_2; [|by apply IH].
    by destruct (failure r).
  - intros Hall. inversion Hall as [|?? Hr Hrs]; subst.
    rewrite Hr. simpl. by apply IH.
Qed.

(** Without failures, not skipped is the same as returned nil. *)
Lemma select_no_failures infos rs :
  failures rs = [] →
  select (λ r, negb (is_skip r)) infos rs = select is_nil infos rs.
Proof.
  revert rs. induction infos as [|info infos IH]; intros [|r rs] Hf; try done.
  rewrite failures_cons in Hf. apply app_eq_nil in Hf as [Hr Hf].
  rewrite !select_cons, (IH _ Hf). f_equal.
  destruct r as [err|]; simpl in *; [|done].
  by destruct (is_ErrExportOmit err).
Qed.

(** The whole block of lines 120-136. *)
Lemma sanitize_run exporter exact infos w :
  let rs := Export_results exporter exact infos (heap w) in
  sanitize exporter exact infos w =
    ((if failures rs is [] then
        Ok (select (λ r, negb (is_skip r)) infos rs)
      else Err (Aggregate (failures rs))),
     {| heap := heap_after exporter exact infos (heap w);
        trace := trace w ++ export_calls exact infos rs |}).
Proof.
  intros rs. unfold sanitize, bind. rewrite sanitize_loop_run. simpl.
  fold rs. by destruct (failures rs).
Qed.

Lemma select_elem_of keep infos rs info :
  info ∈ select keep infos rs →
  ∃ i r, infos !! i = Some info ∧ rs !! i = Some r ∧ keep r = true.
Proof.
  revert rs. induction infos as [|info' infos IH]; intros [|r rs];
    try (by inversion 1).
  rewrite select_cons, elem_of_app. intros [Hin|Hin].
  - destruct (keep r) eqn:Hk; [|by inversion Hin].
    apply list_elem_of_singleton in Hin as ->. by exists 0, r.
  - destruct (IH _ Hin) as (i & r' & ? & ? & ?). by exists (S i), r'.
Qed.

Lemma elem_of_select keep infos rs i info r :
  infos !! i = Some info → rs !! i = Some r → keep r = true →
  info ∈ select keep infos rs.
Proof.
  revert rs i.
  induction infos as [|info' infos IH]; intros [|r' rs] [|i]; try done.
  - intros [= ->] [= ->] Hk. rewrite select_cons, Hk. set_solver.
  - simpl. intros ???. rewrite select_cons. set_solver.
Qed.

Lemma failures_elem_of rs e :
  e ∈ failures rs ↔ Some e ∈ rs ∧ is_ErrExportOmit e = false.
Proof.
  unfold failures. rewrite list_elem_of_omap. split.
  - intros ([err|] & Hin & Hf); simpl in Hf; [|done].
    destruct (is_ErrExportOmit err) eqn:Ho; [done|]. by simplify_eq.
  - intros [Hin Ho]. exists (Some e). simpl. by rewrite Ho.
Qed.

End SanitizeFacts.

(** ** The stages after the sanitize pass, and the whole run *)

Section RunFacts.

Context {Obj Mapper Typer ClientMapper Printer : Type}.
Context {kube : Kube Obj Mapper Typer ClientMapper Printer}.

Local Abbreviation Factory := (Factory Mapper Typer ClientMapper).
Local Abbreviation Builder := (Builder Mapper Typer ClientMapper).
Local Abbreviation Call := (Call Obj Mapper Typer ClientMapper Printer).
Local Abbreviation World := (World Obj Mapper Typer ClientMapper Printer).
Local Abbreviation runtime_Object := (runtime_Object Obj).

Implicit Types (f : Factory) (exporter : Exporter Obj) (cmd : Command).
Implicit Types (w : World) (h : loc → Obj) (infos : list Info).

Local Open Scope run_scope.

(** The conversions keep the number and the order of the documents. *)
Lemma convert_all_Forall2 h infos version objects :
  convert_all h infos version = Ok objects →
  Forall2
    (λ info o, ConvertToVersion (Resource (h (Object info))) version = Ok o)
    infos objects.
Proof.
  revert objects. induction infos as [|info infos IH]; intros objects; simpl.
  - intros [= <-]. constructor.
  - destruct (ConvertToVersion _ _) as [o|e] eqn:Ho; [|done].
    destruct (convert_all h infos version) as [os|e]; [|done].
    intros [= <-]. constructor; [done|]. by apply IH.
Qed.

(** Conversely, when every document converts, so does the collection. *)
Lemma convert_all_total h infos version :
  Forall
    (λ info, ∃ o, ConvertToVersion (Resource (h (Object info))) version = Ok o)
    infos →
  ∃ objects, convert_all h infos version = Ok objects.
Proof.
  induction 1 as [|info infos [o Ho] _ [os IH]]; simpl; [by eexists|].
  rewrite Ho, IH. by eexists.
Qed.

Lemma convert_all_id h infos version :
  (∀ o, ConvertToVersion o version = Ok o) →
  convert_all h infos version =
    Ok ((λ info, Resource (h (Object info))) <$> infos).
Proof.
  intros Hid. induction infos as [|info infos IH]; simpl; [done|].
  by rewrite Hid, IH.
Qed.

(** The aggregation stage leaves the objects alone; its calls are
    aggregation calls, the first of which receives [infos]. *)
Lemma aggregate_world asTemplate infos one version w :
  ∃ t : list Call,
    (aggregate asTemplate infos one version w).2 =
      {| heap := heap w;
         trace := trace w ++
           (if (0 <? String.length asTemplate)%nat
            then CallAsVersionedObjects infos version
            else CallAsVersionedObject infos (negb one) version) :: t |}
    ∧ Forall (λ c, is_aggregation c = true) t.
Proof.
  unfold aggregate.
  destruct (0 <? String.length asTemplate)%nat;
    unfold AsVersionedObjects, AsVersionedObject, call_ConvertToVersion,
      bind, log, lift, ret; simpl.
  - destruct (convert_all (heap w) infos version) as [objects|e]; simpl.
    + destruct (ConvertToVersion _ _); simpl;
        rewrite <- app_assoc; eexists;
        (split; [reflexivity | by repeat constructor]).
    + eexists; (split; [reflexivity | by repeat constructor]).
  - destruct (convert_all (heap w) infos version) as [objects|e]; simpl.
    + destruct objects as [|o [|??]]; [| destruct (negb one) |]; simpl;
        eexists; (split; [reflexivity | by repeat constructor]).
    + eexists; (split; [reflexivity | by repeat constructor]).
Qed.

(** The print stage leaves the objects alone; its calls are output
    calls. *)
Lemma print_world cmd (result : runtime_Object) w :
  ∃ t : list Call,
    (print cmd result w).2 = {| heap := heap w; trace := trace w ++ t |}
    ∧ Forall (λ c, is_output c = true) t.
Proof.
  unfold print, bind, log, lift, fail, ret. simpl.
  destruct (GetPrinter _ _) as [p|e]; simpl.
  - destruct (PrintObj p result); simpl; rewrite <- app_assoc;
      eexists; (split; [reflexivity | by repeat constructor]).
  - eexists; (split; [reflexivity | by repeat constructor]).
Qed.

(** Aggregation followed by printing. *)
Lemma aggregate_print_world cmd asTemplate infos one version w :
  ∃ t : list Call,
    (bind (aggregate asTemplate infos one version) (print cmd) w).2 =
      {| heap := heap w;
         trace := trace w ++
           (if (0 <? String.length asTemplate)%nat
            then CallAsVersionedObjects infos version
            else CallAsVersionedObject infos (negb one) version) :: t |}
    ∧ Forall (λ c, is_aggregation c || is_output c = true) t.
Proof.
  destruct (aggregate_world asTemplate infos one version w) as (t & Hw & Ht).
  unfold bind.
  destruct (aggregate asTemplate infos one version w) as [[result|e] w'];
    simpl in Hw; subst w'.
  - destruct (print_world cmd result
      {| heap := heap w;
         trace := trace w ++
           (if (0 <? String.length asTemplate)%nat
            then CallAsVersionedObjects infos version
            else CallAsVersionedObject infos (negb one) version) :: t |})
      as (t' & -> & Ht').
    simpl. exists (t ++ t'). rewrite <- app_assoc. split; [done|].
    apply Forall_app. split.
    + eapply Forall_impl; [|exact Ht]. by intros c ->.
    + eapply Forall_impl; [|exact Ht']. intros c ->. apply orb_true_r.
  - simpl. exists t. split; [done|].
    eapply Forall_impl; [|exact Ht]. by intros c ->.
Qed.

(** How a run from the initial world proceeds up to the end of the fetch:
    it stops on the flags, on the configuration, on the fetch or on its
    empty result, or it goes on with the sanitize pass, the aggregation
    and the output. *)
Lemma RunExport_cases f exporter cmd args filenames h :
  let exact := GetFlagBool cmd "exact" in
  let raw := GetFlagBool cmd "raw" in
  let asTemplate := GetFlagString cmd "as-template" in
  let out := RunExport f exporter cmd args filenames (init h) in
  (exact && raw = true
   ∧ out = (Err (UsageError "--exact and --raw may not both be specified"),
            init h))
  ∨ (exact && raw = false
     ∧ ∃ e t, out = (Err e, {| heap := h; trace := t |})
       ∧ (t = [CallClientConfig]
          ∨ t = [CallClientConfig; CallDefaultNamespace]))
  ∨ (exact && raw = false
     ∧ ∃ b e, Infos b = Err e
       ∧ out = (Err e,
                {| heap := h;
                   trace := [CallClientConfig; CallDefaultNamespace;
                             CallNewBuilder b; CallInfos b (Err e)] |}))
  ∨ (exact && raw = false
     ∧ ∃ b one, Infos b = Ok ([], one)
       ∧ out = (Err (Errorf "no resources found - nothing to export"),
                {| heap := h;
                   trace := [CallClientConfig; CallDefaultNamespace;
                             CallNewBuilder b;
                             CallInfos b (Ok ([], one))] |}))
  ∨ (exact && raw = false
     ∧ ∃ b infos one version, Infos b = Ok (infos, one) ∧ infos ≠ []
       ∧ out =
           bind (if negb raw then sanitize exporter exact infos
                 else ret infos)
             (λ infos,
                bind (aggregate asTemplate infos one version) (print cmd))
             {| heap := h;
                trace := [CallClientConfig; CallDefaultNamespace;
                          CallNewBuilder b;
                          CallInfos b (Ok (infos, one))] |}).
Proof.
  intros exact raw asTemplate out. subst out. unfold RunExport.
  fold exact raw asTemplate.
  destruct (exact && raw) eqn:Hflags; [by left|]. right.
  cbv beta iota zeta delta [bind log lift fail ret init].
  cbn [heap trace app].
  destruct (ClientConfig f) as [clientConfig|e]; [|left; eauto 10].
  destruct (DefaultNamespace f) as [[cmdNamespace explicit]|e];
    [|left; eauto 10].
  right. destruct (Factory_Object f) as [mapper typer].
  match goal with |- context [CallNewBuilder ?x] => set (b := x) end.
  destruct (Infos b) as [[infos one]|e] eqn:Hfetch; [|left; eauto 10].
  right. destruct infos as [|info infos]; cbn [length Nat.eqb].
  - left. split; [done|]. by exists b, one.
  - right. split; [done|].
    by exists b, (info :: infos), one,
      (OutputVersion cmd (Version clientConfig)).
Qed.

(** The trace of a run that got past the fetch. *)
Lemma pipeline_world exporter cmd infos one version w :
  let exact := GetFlagBool cmd "exact" in
  let raw := GetFlagBool cmd "raw" in
  let asTemplate := GetFlagString cmd "as-template" in
  let rs := Export_results exporter exact infos (heap w) in
  let out :=
    bind (if negb raw then sanitize exporter exact infos else ret infos)
      (λ infos, bind (aggregate asTemplate infos one version) (print cmd))
      w in
  (raw = true
   ∧ ∃ t, out.2 =
       {| heap := heap w;
          trace := trace w ++
            (if (0 <? String.length asTemplate)%nat
             then CallAsVersionedObjects infos version
             else CallAsVersionedObject infos (negb one) version) :: t |}
     ∧ Forall (λ c, is_aggregation c || is_output c = true) t)
  ∨ (raw = false ∧ failures rs ≠ []
     ∧ out = (Err (Aggregate (failures rs)),
              {| heap := heap_after exporter exact infos (heap w);
                 trace := trace w ++ export_calls exact infos rs |}))
  ∨ (raw = false ∧ failures rs = []
     ∧ ∃ t, out.2 =
         {| heap := heap_after exporter exact infos (heap w);
            trace := (trace w ++ export_calls exact infos rs) ++
              (if (0 <? String.length asTemplate)%nat
               then CallAsVersionedObjects (select is_nil infos rs) version
               else CallAsVersionedObject (select is_nil infos rs)
                      (negb one) version) :: t |}
       ∧ Forall (λ c, is_aggregation c || is_output c = true) t).
Proof.
  intros exact raw asTemplate rs out. subst out.
  destruct raw; cbn [negb].
  - left. split; [done|]. unfold bind at 1, ret.
    apply aggregate_print_world.
  - right.
    set (w1 := {| heap := heap_after exporter exact infos (heap w);
                  trace := trace w ++ export_calls exact infos rs |}).
    set (k := λ infos,
           bind (aggregate asTemplate infos one version) (print cmd)).
    assert (bind (sanitize exporter exact infos) k w =
              match failures rs with
              | [] => k (select is_nil infos rs) w1
              | _ => (Err (Aggregate (failures rs)), w1)
              end) as ->.
    { unfold bind. rewrite sanitize_run. fold rs w1.
      destruct (failures rs) eqn:Hf; [|done].
      by rewrite (select_no_failures _ _ Hf). }
    destruct (failures rs) as [|e errs] eqn:Hf.
    + right. split; [done|]. split; [done|].
      apply (aggregate_print_world cmd asTemplate _ one version w1).
    + by left.
Qed.

Lemma export_calls_Forall exact infos rs :
  Forall (λ c : Call, is_CallExport c = true) (export_calls exact infos rs).
Proof.
  unfold export_calls. revert rs.
  induction infos as [|info infos IH]; intros [|r rs]; simpl;
    try constructor; auto.
Qed.

Lemma aggregated_exports (exports t : list Call) :
  Forall (λ c, is_CallExport c = true) exports →
  aggregated (exports ++ t) = aggregated t.
Proof.
  induction 1 as [|c exports Hc _ IH]; [done|].
  by destruct c.
Qed.

Lemma aggregated_only_exports (exports : list Call) :
  Forall (λ c, is_CallExport c = true) exports → aggregated exports = None.
Proof.
  intros Hall. rewrite <- (app_nil_r exports).
  by rewrite aggregated_exports.
Qed.

Lemma aggregated_after_fetch b ret (t : list Call) :
  aggregated (CallClientConfig :: CallDefaultNamespace :: CallNewBuilder b
              :: CallInfos b ret :: t) = aggregated t.
Proof. done. Qed.

Lemma filter_all (P : Call → bool) (t : list Call) :
  Forall (λ c, P c = true) t → filter (λ c, P c = true) t = t.
Proof.
  induction 1 as [|c t Hc _ IH]; [done|].
  rewrite filter_cons. case_decide; [|done]. by rewrite IH.
Qed.

Lemma filter_none (P : Call → bool) (t : list Call) :
  Forall (λ c, P c = false) t → filter (λ c, P c = true) t = [].
Proof.
  induction 1 as [|c t Hc _ IH]; [done|].
  rewrite filter_cons. case_decide; [congruence|done].
Qed.

Lemma later_calls_not_exports (t : list Call) :
  Forall (λ c, is_aggregation c || is_output c = true) t →
  Forall (λ c, is_CallExport c = false) t.
Proof. intros Ht. eapply Forall_impl; [|exact Ht]. by intros []. Qed.

Lemma exports_not_later_calls (t : list Call) :
  Forall (λ c, is_CallExport c = true) t →
  Forall (λ c, is_aggregation c || is_output c = false) t.
Proof. intros Ht. eapply Forall_impl; [|exact Ht]. by intros []. Qed.

End RunFacts.

(** ** The claims about a whole run *)

Section RunClaims.

Context {Obj Mapper Typer ClientMapper Printer : Type}.
Context {kube : Kube Obj Mapper Typer ClientMapper Printer}.

Local Abbreviation Factory := (Factory Mapper Typer ClientMapper).
Local Abbreviation Call := (Call Obj Mapper Typer ClientMapper Printer).
Local Abbreviation World := (World Obj Mapper Typer ClientMapper Printer).

Implicit Types (f : Factory) (exporter : Exporter Obj) (cmd : Command).
Implicit Types (w : World) (h : loc → Obj) (infos : list Info).

(** C1.  With both [--exact] and [--raw] set, [RunExport] returns the
    usage error at once and leaves the world as it found it: no call is
    added to the trace, so no builder is constructed and nothing is
    fetched. *)
Theorem exact_and_raw_rejected f exporter cmd args filenames w :
  GetFlagBool cmd "exact" = true →
  GetFlagBool cmd "raw" = true →
  RunExport f exporter cmd args filenames w =
    (Err (UsageError "--exact and --raw may not both be specified"), w)
  ∧ filter (λ c, is_fetch c = true)
      (trace (RunExport f exporter cmd args filenames w).2) =
    filter (λ c, is_fetch c = true) (trace w).
Proof.
  intros Hexact Hraw. unfold RunExport. rewrite Hexact, Hraw. done.
Qed.

(** C3.  Whenever the fetch returns no document, whatever the flags are,
    [RunExport] fails with the error "no resources found - nothing to
    export"; no object is touched and nothing is exported, aggregated or
    printed. *)
Theorem empty_fetch_fails f exporter cmd args filenames h one :
  let out := RunExport f exporter cmd args filenames (init h) in
  fetched (trace out.2) = Some (Ok ([], one)) →
  out.1 = Err (Errorf "no resources found - nothing to export")
  ∧ heap out.2 = h
  ∧ Forall (λ c, is_CallExport c || is_aggregation c || is_output c = false)
      (trace out.2).
Proof.
  intros out Hfetched. subst out.
  destruct (RunExport_cases f exporter cmd args filenames h)
    as [[_ Hout]|[(_ & e & t & Hout & Ht)|[(_ & b & e & _ & Hout)|
        [(_ & b & one' & _ & Hout)|
         (_ & b & infos & one' & version & _ & Hne & Hout)]]]];
    rewrite Hout in Hfetched |- *.
  - done.
  - by destruct Ht as [-> | ->].
  - done.
  - simpl. repeat split; by repeat constructor.
  - exfalso.
    destruct (pipeline_world exporter cmd infos one' version
                {| heap := h;
                   trace := [CallClientConfig; CallDefaultNamespace;
                             CallNewBuilder b;
                             CallInfos b (Ok (infos, one'))] |})
      as [(_ & t & Hw & _)|[(_ & _ & Hw)|(_ & _ & t & Hw & _)]];
      rewrite Hw in Hfetched; unfold fetched in Hfetched;
      simpl in Hfetched; by simplify_eq.
Qed.

(** C4.  Under [--raw] no [Export] call is made, the objects are left as
    they were fetched, and the collection handed to the aggregation is the
    fetched collection itself, in the same order. *)
Theorem raw_skips_sanitize f exporter cmd args filenames h :
  let out := RunExport f exporter cmd args filenames (init h) in
  GetFlagBool cmd "raw" = true →
  Forall (λ c, is_CallExport c = false) (trace out.2)
  ∧ heap out.2 = h
  ∧ ∀ infos one,
      fetched (trace out.2) = Some (Ok (infos, one)) → infos ≠ [] →
      aggregated (trace out.2) = Some infos.
Proof.
  intros out Hraw. subst out.
  destruct (RunExport_cases f exporter cmd args filenames h)
    as [[_ Hout]|[(_ & e & t & Hout & Ht)|[(_ & b & e & _ & Hout)|
        [(_ & b & one' & _ & Hout)|
         (_ & b & infos & one' & version & _ & Hne & Hout)]]]];
    rewrite Hout.
  - by repeat split.
  - destruct Ht as [-> | ->]; by repeat split; repeat constructor.
  - by repeat split; repeat constructor.
  - repeat split; [by repeat constructor|]. unfold fetched. simpl.
    by intros ?? [= <- <-].
  - destruct (pipeline_world exporter cmd infos one' version
                {| heap := h;
                   trace := [CallClientConfig; CallDefaultNamespace;
                             CallNewBuilder b;
                             CallInfos b (Ok (infos, one'))] |})
      as [(_ & t & Hw & Ht)|[(Hraw' & _)|(Hraw' & _)]];
      [|congruence..].
    rewrite Hw. simpl. repeat split.
    + repeat constructor.
      * by destruct (0 <? String.length _)%nat.
      * by apply later_calls_not_exports.
    + unfold fetched, aggregated. simpl. intros ?? [= <- <-] _.
      by destruct (0 <? String.length _)%nat.
Qed.

(** C6.  Without [--raw], every fetched document gets its [Export] call,
    in fetch order, whatever the earlier calls returned; and as soon as one
    of them returned an error other than the skip signal, [RunExport]
    fails with the aggregate of all these errors, in fetch order, and
    nothing is aggregated or printed. *)
Theorem sanitize_failures_aggregated f exporter cmd args filenames h
    infos one :
  let exact := GetFlagBool cmd "exact" in
  let out := RunExport f exporter cmd args filenames (init h) in
  let rs := Export_results exporter exact infos h in
  GetFlagBool cmd "raw" = false →
  fetched (trace out.2) = Some (Ok (infos, one)) →
  filter (λ c, is_CallExport c = true) (trace out.2) =
    export_calls exact infos rs
  ∧ (failures rs ≠ [] →
     out.1 = Err (Aggregate (failures rs))
     ∧ Forall (λ c, is_aggregation c || is_output c = false)
         (trace out.2)).
Proof.
  intros exact out rs Hraw Hfetched. subst exact out rs.
  destruct (RunExport_cases f exporter cmd args filenames h)
    as [[_ Hout]|[(_ & e & t & Hout & Ht)|[(_ & b & e & _ & Hout)|
        [(_ & b & one' & _ & Hout)|
         (_ & b & infos' & one' & version & _ & Hne & Hout)]]]];
    rewrite Hout in Hfetched |- *.
  - done.
  - by destruct Ht as [-> | ->].
  - done.
  - unfold fetched in Hfetched. simpl in Hfetched. simplify_eq. done.
  - destruct (pipeline_world exporter cmd infos' one' version
                {| heap := h;
                   trace := [CallClientConfig; CallDefaultNamespace;
                             CallNewBuilder b;
                             CallInfos b (Ok (infos', one'))] |})
      as [(Hraw' & _)|[(_ & Hf & Hw)|(_ & Hf & t & Hw & Ht)]];
      [congruence|..]; rewrite Hw in Hfetched |- *;
      unfold fetched in Hfetched; simpl in Hfetched; simplify_eq;
      cbn [heap trace fst snd app] in *.
    + split.
      * do 4 (rewrite filter_cons; case_decide; [done|]).
        apply filter_all, export_calls_Forall.
      * intros _. split; [done|]. repeat constructor.
        apply exports_not_later_calls, export_calls_Forall.
    + split; [|done].
      do 4 (rewrite filter_cons; case_decide; [done|]).
      rewrite list.filter_app, (filter_all is_CallExport),
        (filter_none is_CallExport); [by rewrite app_nil_r| |].
      * constructor; [by destruct (0 <? String.length _)%nat|].
        by apply later_calls_not_exports.
      * apply export_calls_Forall.
Qed.

(** What reaches the aggregation of a run without [--raw]: nothing when a
    call of the pass failed, and otherwise the fetched documents whose call
    returned nil, in fetch order.  In particular a skipped document does not
    reach it. *)
Lemma aggregated_survivors f exporter cmd args filenames h infos one
    survivors :
  let exact := GetFlagBool cmd "exact" in
  let out := RunExport f exporter cmd args filenames (init h) in
  let rs := Export_results exporter exact infos h in
  GetFlagBool cmd "raw" = false →
  fetched (trace out.2) = Some (Ok (infos, one)) →
  aggregated (trace out.2) = Some survivors →
  failures rs = [] ∧ survivors = select is_nil infos rs.
Proof.
  intros exact out rs Hraw Hfetched. subst exact out rs.
  destruct (RunExport_cases f exporter cmd args filenames h)
    as [[_ Hout]|[(_ & e & t & Hout & Ht)|[(_ & b & e & _ & Hout)|
        [(_ & b & one' & _ & Hout)|
         (_ & b & infos' & one' & version & _ & Hne & Hout)]]]];
    rewrite Hout in Hfetched |- *.
  - done.
  - by destruct Ht as [-> | ->].
  - done.
  - done.
  - destruct (pipeline_world exporter cmd infos' one' version
                {| heap := h;
                   trace := [CallClientConfig; CallDefaultNamespace;
                             CallNewBuilder b;
                             CallInfos b (Ok (infos', one'))] |})
      as [(Hraw' & _)|[(_ & Hf & Hw)|(_ & Hf & t & Hw & Ht)]];
      [congruence|..]; rewrite Hw in Hfetched |- *;
      unfold fetched in Hfetched; simpl in Hfetched; simplify_eq;
      cbn [heap trace fst snd app] in *.
    + rewrite aggregated_after_fetch,
        aggregated_only_exports by apply export_calls_Forall. done.
    + rewrite aggregated_after_fetch,
        aggregated_exports by apply export_calls_Forall.
      unfold aggregated. destruct (0 <? String.length _)%nat; simpl;
        by intros [= <-].
Qed.

End RunClaims.

(** ** The claims about the sanitize pass *)

Section SanitizeClaims.

Context {Obj Mapper Typer ClientMapper Printer : Type}.

Local Abbreviation World := (World Obj Mapper Typer ClientMapper Printer).

Implicit Types (exporter : Exporter Obj) (exact : bool) (w : World).
Implicit Types (infos : list Info) (h : loc → Obj).

(** When the fetched infos are pairwise distinct, each call sees its
    object as it was fetched. *)
Lemma Export_results_distinct exporter exact infos h :
  NoDup infos →
  Export_results exporter exact infos h =
    (λ info, (Export exporter (h (Object info)) exact).2) <$> infos.
Proof.
  intros Hnd.
  cut (∀ h', (∀ info, info ∈ infos → h' (Object info) = h (Object info)) →
             Export_results exporter exact infos h' =
               (λ info, (Export exporter (h (Object info)) exact).2) <$> infos);
    [by intros Hcut; apply Hcut|].
  induction Hnd as [|info infos Hnotin Hnd IH]; intros h' Hh'; [done|].
  simpl. rewrite (Hh' info) by set_solver.
  destruct (Export exporter (h (Object info)) exact) as [o err]. simpl. f_equal.
  apply IH. intros info' Hin.
  rewrite fn_lookup_insert_ne; [apply Hh'; set_solver|].
  intros Heq. destruct info, info'. simpl in Heq. subst. done.
Qed.

End SanitizeClaims.

(** ** The claims about the aggregation and the output *)

Section AggregateClaims.

Context {Obj Mapper Typer ClientMapper Printer : Type}.
Context {kube : Kube Obj Mapper Typer ClientMapper Printer}.

Local Abbreviation Call := (Call Obj Mapper Typer ClientMapper Printer).
Local Abbreviation World := (World Obj Mapper Typer ClientMapper Printer).
Local Abbreviation runtime_Object := (runtime_Object Obj).

Implicit Types (cmd : Command) (w : World) (infos : list Info).

Lemma length_pos_nonempty (s : string) :
  s ≠ EmptyString → (0 <? String.length s)%nat = true.
Proof. by destruct s. Qed.

(** C7.  With a template name [x], whatever the number of surviving
    documents, the aggregation converts each of them, in order, and
    submits the template named [x] that holds them all to the version
    conversion, whose answer is the result; a conversion that changes
    nothing gives that very template.  No document is unwrapped, and
    the stage makes no [Export] call: the template is not sanitized. *)
Theorem template_holds_all asTemplate infos one version w :
  asTemplate ≠ EmptyString →
  let out := aggregate asTemplate infos one version w in
  match convert_all (heap w) infos version with
  | Ok objects =>
      length objects = length infos
      ∧ Forall2
          (λ info o,
             ConvertToVersion (Resource (heap w (Object info))) version = Ok o)
          infos objects
      ∧ out.1 = ConvertToVersion (Template asTemplate objects) version
  | Err e => out.1 = Err e
  end
  ∧ ((∀ o : runtime_Object, ConvertToVersion o version = Ok o) →
     out.1 =
       Ok (Template asTemplate
             ((λ info, Resource (heap w (Object info))) <$> infos)))
  ∧ heap out.2 = heap w
  ∧ ∃ t : list Call,
      trace out.2 = trace w ++ t
      ∧ Forall (λ c, is_CallExport c = false) t.
Proof.
  intros Hname out.
  assert (out.1 =
            match convert_all (heap w) infos version with
            | Ok objects =>
                ConvertToVersion (Template asTemplate objects) version
            | Err e => Err e
            end) as Hout.
  { subst out. unfold aggregate. rewrite (length_pos_nonempty _ Hname).
    unfold AsVersionedObjects, call_ConvertToVersion, bind, log, lift, ret.
    simpl. destruct (convert_all (heap w) infos version); simpl; [|done].
    by destruct (ConvertToVersion _ _). }
  split; [|split; [|split]].
  - destruct (convert_all (heap w) infos version) as [objects|e] eqn:Hc;
      [|done].
    pose proof (convert_all_Forall2 _ _ _ _ Hc) as Hall.
    split; [symmetry; by eapply Forall2_length|]. by split.
  - intros Hid. rewrite Hout, (convert_all_id _ _ _ Hid). apply Hid.
  - subst out.
    destruct (aggregate_world asTemplate infos one version w)
      as (t & -> & _). done.
  - subst out.
    destruct (aggregate_world asTemplate infos one version w)
      as (t & -> & Ht). simpl. eexists. split; [done|].
    constructor; [by destruct (0 <? String.length _)%nat|].
    eapply Forall_impl; [|exact Ht]. by intros [].
Qed.


(** C10.  The print stage asks [GetPrinter] once, with the template file
    as given and with the format "yaml" when neither [--output] nor
    [--template] is given, "template" when only [--template] is given, and
    the value of [--output] whenever it is given; the printer it gets is
    the one that prints the result. *)
Theorem output_format_defaults cmd (result : runtime_Object) w :
  let output := GetFlagString cmd "output" in
  let templateFile := GetFlagString cmd "template" in
  let out := print cmd result w in
  ∃ format,
    (output = EmptyString → templateFile = EmptyString → format = "yaml")
    ∧ (output = EmptyString → templateFile ≠ EmptyString → format = "template")
    ∧ (output ≠ EmptyString → format = output)
    ∧ match GetPrinter format templateFile with
      | Ok p =>
          trace out.2 =
            trace w ++ [CallGetPrinter format templateFile;
                        CallPrintObj p result]
          ∧ out.1 = match PrintObj p result with
                    | Some err => Err err
                    | None => Ok tt
                    end
      | Err e =>
          trace out.2 = trace w ++ [CallGetPrinter format templateFile]
          ∧ out.1 = Err e
      end.
Proof.
  intros output templateFile out. subst out. unfold print.
  fold output templateFile.
  set (format1 := if (String.length output =? 0)%nat
                     && negb (String.length templateFile =? 0)%nat
                  then "template" else output).
  set (format := if (String.length format1 =? 0)%nat
                 then "yaml" else format1).
  exists format. split; [|split; [|split]].
  - intros Ho Ht. subst format format1. by rewrite Ho, Ht.
  - intros Ho Ht. subst format format1. rewrite Ho.
    by destruct templateFile.
  - intros Ho. subst format format1. by destruct output.
  - unfold bind, log, lift, fail, ret. simpl.
    destruct (GetPrinter format templateFile) as [p|e]; simpl; [|done].
    rewrite <- app_assoc. by destruct (PrintObj p result).
Qed.

End AggregateClaims.

(** ** The claim about the sanitizer *)

Section SanitizerClaims.

Import Sanitizer.

Lemma clear_clear selected doc :
  clear selected (clear selected doc) = clear selected doc.
Proof.
  unfold clear. simpl. f_equal. apply map_filter_id.
  by intros path value [_ Hkept]%map_lookup_filter_Some.
Qed.

(** C9.  Under the policies [Exact] and [Default], sanitizing a document a
    second time leaves it as the first pass made it. *)
Theorem Sanitize_idempotent registry generic doc policy :
  policy = Exact ∨ policy = Default →
  (Sanitize registry generic (Sanitize registry generic doc policy).1
     policy).1 =
    (Sanitize registry generic doc policy).1.
Proof.
  intros Hpolicy.
  assert (∀ d, (Sanitize registry generic d policy).1 = d
               ∨ (Sanitize registry generic d policy).1 =
                   clear (clears (default generic (registry !! kind d))
                            (apiVersion d) policy) d) as Hcases.
  { intros d. unfold Sanitize.
    destruct policy; simpl; auto;
      destruct (skips _ d); simpl; auto;
      destruct (fails _ d); simpl; auto. }
  destruct (Hcases doc) as [Hsame | Hcleared].
  - by rewrite !Hsame.
  - rewrite Hcleared. set (selected := clears _ _ _).
    destruct (Hcases (clear selected doc)) as [-> | ->]; [done|].
    simpl. apply clear_clear.
Qed.

End SanitizerClaims.

(* ===================================================================== *)
(** * The claims on the small cluster *)

(** C1 on [export --exact --raw svc/a]. *)
Lemma exact_and_raw_rejected_run :
  GetFlagBool Demo.exact_raw "exact" = true
  ∧ GetFlagBool Demo.exact_raw "raw" = true
  ∧ Demo.run Demo.exact_raw ["svc/a"] =
      (Err (UsageError "--exact and --raw may not both be specified"),
       Demo.world)
  ∧ filter (λ c, is_fetch c = true)
      (trace (Demo.run Demo.exact_raw ["svc/a"]).2) =
    filter (λ c, is_fetch c = true) (trace Demo.world).
Proof.
  split; [vm_compute; reflexivity|]. split; [vm_compute; reflexivity|].
  apply (exact_and_raw_rejected (kube := Demo.kube));
    vm_compute; reflexivity.
Defined.

(** C3 on [export --as-template=x --raw nothing], where nothing is
    selected. *)
Lemma empty_fetch_fails_run :
  fetched (trace (Demo.run Demo.raw_template ["nothing"]).2) =
    Some (Ok ([], false))
  ∧ (Demo.run Demo.raw_template ["nothing"]).1 =
      Err (Errorf "no resources found - nothing to export")
  ∧ heap (Demo.run Demo.raw_template ["nothing"]).2 = Demo.cluster
  ∧ Forall (λ c, is_CallExport c || is_aggregation c || is_output c = false)
      (trace (Demo.run Demo.raw_template ["nothing"]).2).
Proof.
  split; [vm_compute; reflexivity|].
  apply (empty_fetch_fails (kube := Demo.kube) Demo.factory Demo.exporter
           Demo.raw_template ["nothing"] [] Demo.cluster false).
  vm_compute; reflexivity.
Defined.

(** C4 on [export --as-template=x --raw broken,svc]. *)
Lemma raw_skips_sanitize_run :
  GetFlagBool Demo.raw_template "raw" = true
  ∧ Forall (λ c, is_CallExport c = false)
      (trace (Demo.run Demo.raw_template ["broken,svc"]).2)
  ∧ heap (Demo.run Demo.raw_template ["broken,svc"]).2 = Demo.cluster
  ∧ ∀ infos one,
      fetched (trace (Demo.run Demo.raw_template ["broken,svc"]).2) =
        Some (Ok (infos, one)) →
      infos ≠ [] →
      aggregated (trace (Demo.run Demo.raw_template ["broken,svc"]).2) =
        Some infos.
Proof.
  split; [vm_compute; reflexivity|].
  apply (raw_skips_sanitize (kube := Demo.kube) Demo.factory Demo.exporter
           Demo.raw_template ["broken,svc"] [] Demo.cluster).
  vm_compute; reflexivity.
Defined.

(** C6 on [export broken,svc]: the first and the third of the three
    documents fail. *)
Lemma sanitize_failures_aggregated_run :
  GetFlagBool Demo.plain "raw" = false
  ∧ fetched (trace (Demo.run Demo.plain ["broken,svc"]).2) =
      Some (Ok ([Demo.info 3; Demo.info 1; Demo.info 4], false))
  ∧ failures
      (Export_results Demo.exporter false
         [Demo.info 3; Demo.info 1; Demo.info 4] Demo.cluster) =
      [Errorf "cannot export b1"; Errorf "cannot export b2"]
  ∧ (Demo.run Demo.plain ["broken,svc"]).1 =
      Err (Aggregate [Errorf "cannot export b1"; Errorf "cannot export b2"])
  ∧ Forall (λ c, is_aggregation c || is_output c = false)
      (trace (Demo.run Demo.plain ["broken,svc"]).2).
Proof.
  split; [vm_compute; reflexivity|]. split; [vm_compute; reflexivity|].
  split; [vm_compute; reflexivity|].
  apply (sanitize_failures_aggregated (kube := Demo.kube) Demo.factory
           Demo.exporter Demo.plain ["broken,svc"] [] Demo.cluster
           [Demo.info 3; Demo.info 1; Demo.info 4] false);
    [vm_compute; reflexivity..|].
  vm_compute. discriminate.
Defined.

(** C2 as it was stated fails on the pair of a broken object and a service:
    the call on the broken object returns an error that is not the skip
    signal, and the loop still appends that object to the new collection,
    which therefore is not the collection of the documents that neither
    were skipped nor failed. *)
Lemma failing_document_is_appended :
  ∃ newInfos errs,
    (sanitize_loop Demo.exporter false [Demo.info 3; Demo.info 1] ([], [])
       Demo.world).1 = Ok (newInfos, errs)
    ∧ Export_results Demo.exporter false [Demo.info 3; Demo.info 1]
        Demo.cluster = [Some (Errorf "cannot export b1"); None]
    ∧ Demo.info 3 ∈ newInfos
    ∧ newInfos ≠
        select is_nil [Demo.info 3; Demo.info 1]
          (Export_results Demo.exporter false [Demo.info 3; Demo.info 1]
             Demo.cluster).
Proof.
  exists [Demo.info 3; Demo.info 1], [Errorf "cannot export b1"].
  split; [reflexivity|]. split; [reflexivity|].
  split; [apply list_elem_of_here|]. vm_compute. discriminate.
Defined.

(** C7 on one surviving document and the template name "x". *)
Lemma template_holds_all_run :
  "x" ≠ EmptyString
  ∧ (aggregate (kube := Demo.kube) "x" [Demo.info 1] true "v1"
       Demo.world).1 =
      Ok (Template "x" [Resource Demo.service]).
Proof.
  split; [discriminate|].
  destruct (template_holds_all (kube := Demo.kube) "x" [Demo.info 1] true
              "v1" Demo.world) as (_ & Hid & _); [discriminate|].
  apply Hid. reflexivity.
Defined.


(** C9 on the service of the end-to-end scenarios, policy [Exact]. *)
Lemma Sanitize_idempotent_run :
  (Sanitizer.Exact = Sanitizer.Exact ∨ Sanitizer.Exact = Sanitizer.Default)
  ∧ (Sanitizer.Sanitize Sanitizer.the_registry Sanitizer.generic_routine
       (Sanitizer.Sanitize Sanitizer.the_registry Sanitizer.generic_routine
          Sanitizer.a_service Sanitizer.Exact).1 Sanitizer.Exact).1 =
      (Sanitizer.Sanitize Sanitizer.the_registry Sanitizer.generic_routine
         Sanitizer.a_service Sanitizer.Exact).1.
Proof.
  split; [left; reflexivity|].
  apply Sanitize_idempotent. left; reflexivity.
Defined.

(** C10 on [export --template=t.tpl]: the format becomes "template". *)
Lemma output_format_defaults_run :
  trace (print (kube := Demo.kube) Demo.with_template_file
           (Resource Demo.service) Demo.world).2 =
    [CallGetPrinter "template" "t.tpl";
     CallPrintObj "template" (Resource Demo.service)].
Proof.
  destruct (output_format_defaults (kube := Demo.kube)
              Demo.with_template_file (Resource Demo.service) Demo.world)
    as (format & _ & Htemplate & _ & Hrun).
  assert (format = "template") as ->.
  { apply Htemplate; vm_compute; [reflexivity|discriminate]. }
  exact (proj1 Hrun).
Defined.

(** The end-to-end scenarios of section 8: a single service, selected by
    name, exported under the default policy and under [--exact]. *)
Example default_policy_scenario :
  (Demo.run Demo.plain ["svc/a"]).1 = Ok tt
  ∧ heap (Demo.run Demo.plain ["svc/a"]).2 1%positive =
      {| Demo.kind := "Service"; Demo.name := "a";
         Demo.resourceVersion := EmptyString;
         Demo.clusterIP := EmptyString |}
  ∧ list.last (trace (Demo.run Demo.plain ["svc/a"]).2) =
      Some (CallPrintObj "yaml"
              (Resource {| Demo.kind := "Service"; Demo.name := "a";
                           Demo.resourceVersion := EmptyString;
                           Demo.clusterIP := EmptyString |})).
Proof. repeat split; reflexivity. Qed.

Example exact_policy_scenario :
  list.last (trace (Demo.run Demo.exact_only ["svc/a"]).2) =
    Some (CallPrintObj "yaml"
            (Resource {| Demo.kind := "Service"; Demo.name := "a";
                         Demo.resourceVersion := EmptyString;
                         Demo.clusterIP := "10.0.0.5" |})).
Proof. reflexivity. Qed.

(** A selection of several documents is printed as a list; a skipped
    secret is absent from it. *)
Example list_scenario :
  list.last (trace (Demo.run Demo.plain ["svc,secret,cm"]).2) =
    Some (CallPrintObj "yaml"
            (List
               [Resource {| Demo.kind := "Service"; Demo.name := "a";
                            Demo.resourceVersion := EmptyString;
                            Demo.clusterIP := EmptyString |};
                Resource {| Demo.kind := "ConfigMap"; Demo.name := "c";
                            Demo.resourceVersion := EmptyString;
                            Demo.clusterIP := EmptyString |}])).
Proof. reflexivity. Qed.

(* ===================================================================== *)
(** * More on the run: the order of the calls, what success means, what
      is left untouched *)

From stdpp Require Import sorting.

(** Membership in a list that is written out. *)
Ltac list_cases Hin :=
  repeat (apply elem_of_cons in Hin as [Hin|Hin]; [try done|]);
  try (by apply elem_of_nil in Hin); simplify_eq.

Section StageFacts.

Context {Obj Mapper Typer ClientMapper Printer : Type}.
Context {kube : Kube Obj Mapper Typer ClientMapper Printer}.

Local Abbreviation Factory := (Factory Mapper Typer ClientMapper).
Local Abbreviation Call := (Call Obj Mapper Typer ClientMapper Printer).
Local Abbreviation World := (World Obj Mapper Typer ClientMapper Printer).
Local Abbreviation runtime_Object := (runtime_Object Obj).

Implicit Types (f : Factory) (exporter : Exporter Obj) (cmd : Command).
Implicit Types (w : World) (h : loc → Obj) (infos : list Info).

(** Every way a run from the initial world can go: it stops on the flags,
    on the client configuration, on the namespace, on the fetch, on its
    empty result or on the failures of the sanitize pass, or it reaches the
    aggregation, with the fetched infos under [--raw] and with the
    survivors of the pass otherwise. *)
Lemma RunExport_stages f exporter cmd args filenames h :
  let exact := GetFlagBool cmd "exact" in
  let raw := GetFlagBool cmd "raw" in
  let asTemplate := GetFlagString cmd "as-template" in
  let out := RunExport f exporter cmd args filenames (init h) in
  (exact && raw = true
   ∧ out = (Err (UsageError "--exact and --raw may not both be specified"),
            init h))
  ∨ (exact && raw = false
     ∧ ∃ e, ClientConfig f = Err e
       ∧ out = (Err e, {| heap := h; trace := [CallClientConfig] |}))
  ∨ (exact && raw = false
     ∧ ∃ e, DefaultNamespace f = Err e
       ∧ out = (Err e,
                {| heap := h;
                   trace := [CallClientConfig; CallDefaultNamespace] |}))
  ∨ (exact && raw = false
     ∧ ∃ b e, Infos b = Err e
       ∧ out = (Err e, {| heap := h; trace := calls_to_fetch b (Err e) |}))
  ∨ (exact && raw = false
     ∧ ∃ b one,
         out = (Err (Errorf "no resources found - nothing to export"),
                {| heap := h; trace := calls_to_fetch b (Ok ([], one)) |}))
  ∨ (raw = false
     ∧ ∃ b infos one,
         let rs := Export_results exporter exact infos h in
         infos ≠ [] ∧ failures rs ≠ []
         ∧ out = (Err (Aggregate (failures rs)),
                  {| heap := heap_after exporter exact infos h;
                     trace := calls_to_fetch b (Ok (infos, one))
                              ++ export_calls exact infos rs |}))
  ∨ (∃ cfg b infos one infos1 w1,
       let rs := Export_results exporter exact infos h in
       ClientConfig f = Ok cfg ∧ infos ≠ []
       ∧ ((raw = true ∧ infos1 = infos
           ∧ w1 = {| heap := h;
                     trace := calls_to_fetch b (Ok (infos, one)) |})
          ∨ (raw = false ∧ failures rs = []
             ∧ infos1 = select is_nil infos rs
             ∧ w1 = {| heap := heap_after exporter exact infos h;
                       trace := calls_to_fetch b (Ok (infos, one))
                                ++ export_calls exact infos rs |}))
       ∧ out = bind (aggregate asTemplate infos1 one
                       (OutputVersion cmd (Version cfg)))
                 (print cmd) w1).
Proof.
  intros exact raw asTemplate out. subst out. unfold RunExport.
  fold exact raw asTemplate.
  destruct (exact && raw) eqn:Hflags; [by left|]. right.
  cbv beta iota zeta delta [bind log lift fail ret init].
  cbn [heap trace app].
  destruct (ClientConfig f) as [cfg|e] eqn:Hcfg;
    [|left; split; [done|]; by exists e].
  right.
  destruct (DefaultNamespace f) as [[cmdNamespace explicit]|e];
    [|left; split; [done|]; by exists e].
  right. destruct (Factory_Object f) as [mapper typer].
  match goal with |- context [CallNewBuilder ?x] => set (b := x) end.
  destruct (Infos b) as [[infos one]|e] eqn:Hfetch;
    [|left; split; [done|]; by exists b, e].
  right. destruct infos as [|info infos]; cbn [length Nat.eqb].
  { left. split; [done|]. by exists b, one. }
  right. set (infos0 := info :: infos). cbn [heap trace app].
  set (w0 := {| heap := h;
                trace := [CallClientConfig; CallDefaultNamespace;
                          CallNewBuilder b;
                          CallInfos b (Ok (infos0, one))] |}).
  destruct raw eqn:Hraw; cbn [negb].
  - right. exists cfg, b, infos0, one, infos0, w0.
    split; [done|]. split; [done|]. split; [left; by repeat split|].
    done.
  - rewrite sanitize_run.
    change (heap w0) with h.
    change (trace w0) with
      (calls_to_fetch (Obj := Obj) (Printer := Printer) b (Ok (infos0, one))).
    destruct (failures (Export_results exporter exact infos0 h)) eqn:Hf;
      cbv beta iota.
    + right. rewrite (select_no_failures _ _ Hf).
      eexists cfg, b, infos0, one, _, _.
      split; [done|]. split; [done|]. split; [right; by repeat split|].
      done.
    + left. split; [done|]. exists b, infos0, one. cbn zeta.
      rewrite Hf. by repeat split.
Qed.

(** The calls of the aggregation stage and its result. *)
Lemma aggregate_shape asTemplate infos one version w :
  ∃ (r : Result runtime_Object) (t : list Call),
    aggregate asTemplate infos one version w =
      (r, {| heap := heap w; trace := trace w ++ t |})
    ∧ ((∃ e, t = [CallAsVersionedObjects infos version] ∧ r = Err e)
       ∨ (∃ objects,
            asTemplate ≠ EmptyString
            ∧ t = [CallAsVersionedObjects infos version;
                   CallConvertToVersion (Template asTemplate objects)
                     version]
            ∧ r = ConvertToVersion (Template asTemplate objects) version)
       ∨ (asTemplate = EmptyString
          ∧ t = [CallAsVersionedObject infos (negb one) version])).
Proof.
  unfold aggregate.
  destruct (0 <? String.length asTemplate)%nat eqn:Hname;
    unfold AsVersionedObjects, AsVersionedObject, call_ConvertToVersion,
      bind, log, lift, ret; cbn [heap trace].
  - assert (asTemplate ≠ EmptyString) by (by intros ->).
    destruct (convert_all (heap w) infos version) as [objects|e].
    + cbn [heap trace set_Name]. rewrite <- app_assoc.
      destruct (ConvertToVersion (Template asTemplate objects) version)
        eqn:Hc; eexists _, _; (split; [reflexivity|]); right; left;
        exists objects; by rewrite Hc.
    + eexists _, _. split; [reflexivity|]. left. by exists e.
  - assert (asTemplate = EmptyString) by (by destruct asTemplate).
    destruct (convert_all (heap w) infos version) as [objects|e].
    + destruct objects as [|o [|??]]; [|destruct (negb one)|];
        eexists _, _; (split; [reflexivity|]); by do 2 right.
    + eexists _, _. split; [reflexivity|]. by do 2 right.
Qed.

(** The calls of the output stage and its result. *)
Lemma print_shape cmd (result : runtime_Object) w :
  let format :=
    if (String.length (GetFlagString cmd "output") =? 0)%nat
    then if (String.length (GetFlagString cmd "template") =? 0)%nat
         then "yaml" else "template"
    else GetFlagString cmd "output" in
  let templateFile := GetFlagString cmd "template" in
  ∃ (r : Result unit) (t : list Call),
    print cmd result w = (r, {| heap := heap w; trace := trace w ++ t |})
    ∧ ((∃ e, GetPrinter format templateFile = Err e
             ∧ t = [CallGetPrinter format templateFile] ∧ r = Err e)
       ∨ (∃ p, GetPrinter format templateFile = Ok p
               ∧ t = [CallGetPrinter format templateFile;
                      CallPrintObj p result]
               ∧ r = match PrintObj p result with
                     | Some err => Err err
                     | None => Ok tt
                     end)).
Proof.
  intros format templateFile. unfold print.
  assert ((if (String.length
                 (if (String.length (GetFlagString cmd "output") =? 0)%nat
                     && negb (String.length (GetFlagString cmd "template")
                              =? 0)%nat
                  then "template" else GetFlagString cmd "output") =? 0)%nat
           then "yaml"
           else if (String.length (GetFlagString cmd "output") =? 0)%nat
                   && negb (String.length (GetFlagString cmd "template")
                            =? 0)%nat
                then "template" else GetFlagString cmd "output") = format)
    as ->.
  { subst format.
    destruct (GetFlagString cmd "output") as [|??]; [|done].
    by destruct (GetFlagString cmd "template"). }
  fold templateFile.
  unfold bind, log, lift, fail, ret. cbn [heap trace].
  destruct (GetPrinter format templateFile) as [p|e] eqn:Hp.
  - cbn [heap trace]. rewrite <- app_assoc.
    destruct (PrintObj p result) eqn:Hr; eexists _, _;
      (split; [reflexivity|]); right; exists p; by rewrite Hr.
  - eexists _, _. split; [reflexivity|]. left. by exists e.
Qed.

(** The aggregation and the output together: their calls come in the order
    of the stages, the first one receives [infos], and the run succeeds
    exactly when the printer was reached and printed. *)
Lemma tail_run cmd asTemplate infos one version w :
  let out := bind (aggregate asTemplate infos one version) (print cmd) w in
  ∃ t : list Call,
    out.2 = {| heap := heap w; trace := trace w ++ t |}
    ∧ StronglySorted in_order t
    ∧ Forall (λ c, 5 ≤ phase c) t
    ∧ aggregated t = Some infos
    ∧ Forall (λ c, is_aggregation c = true → call_version c = Some version) t
    ∧ (out.1 = Ok tt ↔
       ∃ p result, CallPrintObj p result ∈ t ∧ PrintObj p result = None)
    ∧ (∀ p result,
         CallPrintObj p result ∈ t →
         list.last t = Some (CallPrintObj p result)
         ∧ GetPrinter
             (if (String.length (GetFlagString cmd "output") =? 0)%nat
              then if (String.length (GetFlagString cmd "template") =? 0)%nat
                   then "yaml" else "template"
              else GetFlagString cmd "output")
             (GetFlagString cmd "template") = Ok p)
    ∧ (∀ o version',
         CallConvertToVersion o version' ∈ t →
         (∃ objects, o = Template asTemplate objects)
         ∧ asTemplate ≠ EmptyString
         ∧ ∀ e, ConvertToVersion o version' = Err e →
                out.1 = Err e ∧ Forall (λ c, is_output c = false) t)
    ∧ (∀ p result,
         CallPrintObj p result ∈ t → asTemplate ≠ EmptyString →
         ∃ objects,
           CallConvertToVersion (Template asTemplate objects) version ∈ t
           ∧ ConvertToVersion (Template asTemplate objects) version =
               Ok result).
Proof.
  intros out. subst out. unfold bind.
  destruct (aggregate_shape asTemplate infos one version w)
    as (r & t & -> & Ht).
  destruct r as [result|e].
  - destruct (print_shape cmd result
                {| heap := heap w; trace := trace w ++ t |})
      as (r' & t' & -> & Ht').
    cbn [heap trace fst snd]. rewrite <- app_assoc.
    exists (t ++ t'). split; [done|].
    destruct Ht as [(e & -> & ?)|[(objects & Hname & -> & Hr)
                                  |(Hname & ->)]];
      [done|..];
      destruct Ht' as [(e & Hp & -> & ->)|(p & Hp & -> & ->)];
      cbn [app].
    all: split; [repeat constructor; unfold in_order; simpl; lia|].
    all: split; [repeat constructor; simpl; lia|].
    all: split; [reflexivity|].
    all: split; [by repeat constructor|].
    all: split;
      [split;
       [first [done
              |destruct (PrintObj p result) eqn:Hprint; [done|];
               intros _; exists p, result; split; [set_solver|done]]
       |intros (p' & result' & Hin & Hprint); list_cases Hin;
        by rewrite Hprint]|].
    all: split; [intros p' result' Hin; list_cases Hin; by split|].
    all: split;
      [intros o version' Hin; list_cases Hin;
       (split; [by eexists|]); (split; [done|]);
       intros e' He'; congruence|].
    all: intros p' result' Hin Hne; list_cases Hin; try done.
    exists objects. split; [|done].
    apply list_elem_of_further, list_elem_of_here.
  - cbn [heap trace fst snd]. exists t. split; [done|].
    destruct Ht as [(e' & -> & ?)|[(objects & Hname & -> & Hr)
                                   |(Hname & ->)]].
    all: split; [repeat constructor; unfold in_order; simpl; lia|].
    all: split; [repeat constructor; simpl; lia|].
    all: split; [reflexivity|].
    all: split; [by repeat constructor|].
    all: split;
      [split; [done|intros (p' & result' & Hin & _); list_cases Hin]|].
    all: split; [intros p' result' Hin; list_cases Hin|].
    all: split; [|intros p' result' Hin; list_cases Hin].
    all: intros o version' Hin; list_cases Hin.
    split; [by eexists|]. split; [done|].
    intros e' He'. split; [congruence|by repeat constructor].
Qed.

End StageFacts.

Section RunOrder.

Context {Obj Mapper Typer ClientMapper Printer : Type}.
Context {kube : Kube Obj Mapper Typer ClientMapper Printer}.

Local Abbreviation Factory := (Factory Mapper Typer ClientMapper).
Local Abbreviation Call := (Call Obj Mapper Typer ClientMapper Printer).
Local Abbreviation World := (World Obj Mapper Typer ClientMapper Printer).

Implicit Types (f : Factory) (exporter : Exporter Obj) (cmd : Command).
Implicit Types (w : World) (h : loc → Obj) (infos : list Info).
Implicit Types (t : list Call).

Lemma export_calls_phase exact infos rs :
  Forall (λ c : Call, phase c = 4) (export_calls exact infos rs).
Proof.
  eapply list.Forall_impl; [apply export_calls_Forall|]. by intros [].
Qed.

Lemma same_stage_in_order t :
  Forall (λ c, phase c = 4) t → StronglySorted in_order t.
Proof.
  induction 1 as [|c t Hc Ht IH]; constructor; [done|].
  eapply list.Forall_impl; [exact Ht|]. intros c' Hc'. by right.
Qed.

(** Calls of stages up to [n] followed by calls of later stages. *)
Lemma in_order_app n t1 t2 :
  StronglySorted in_order t1 → StronglySorted in_order t2 →
  Forall (λ c, phase c ≤ n) t1 → Forall (λ c, n < phase c) t2 →
  StronglySorted in_order (t1 ++ t2).
Proof.
  intros H1 H2 Hle Hlt. apply StronglySorted_app_2; [|done..].
  intros c1 c2 Hc1 Hc2. left.
  rewrite Forall_forall in Hle, Hlt.
  specialize (Hle _ Hc1). specialize (Hlt _ Hc2). lia.
Qed.

Lemma calls_to_fetch_in_order b ret :
  StronglySorted in_order (calls_to_fetch (Obj := Obj) (Printer := Printer)
                             b ret)
  ∧ Forall (λ c : Call, phase c ≤ 3) (calls_to_fetch b ret).
Proof.
  split; repeat constructor; unfold in_order; simpl; lia.
Qed.

(** The calls up to the end of the sanitize pass. *)
Lemma sanitized_in_order b ret exact infos rs :
  StronglySorted in_order
    (calls_to_fetch (Obj := Obj) (Printer := Printer) b ret
     ++ export_calls exact infos rs)
  ∧ Forall (λ c : Call, phase c ≤ 4)
      (calls_to_fetch b ret ++ export_calls exact infos rs).
Proof.
  destruct (calls_to_fetch_in_order b ret) as [Hs Hle]. split.
  - apply (in_order_app 3); [done| |done|].
    + apply same_stage_in_order, export_calls_phase.
    + eapply list.Forall_impl; [apply export_calls_phase|].
      intros c Hc. simpl in Hc. lia.
  - apply Forall_app. split.
    + eapply list.Forall_impl; [exact Hle|]. intros c Hc. simpl in Hc. lia.
    + eapply list.Forall_impl; [apply export_calls_phase|].
      intros c Hc. simpl in Hc. lia.
Qed.

(** X1.  In every run the calls come in the order of the stages: client
    configuration, namespace, builder, fetch, the [Export] calls, the
    aggregation, the template conversion, the choice of the printer, the
    printing.  Apart from the [Export] calls no stage is entered twice, and
    no stage is ever gone back to. *)
Theorem calls_in_order f exporter cmd args filenames h :
  StronglySorted in_order
    (trace (RunExport f exporter cmd args filenames (init h)).2).
Proof.
  destruct (RunExport_stages f exporter cmd args filenames h)
    as [[_ ->]|[(_ & e & _ & ->)|[(_ & e & _ & ->)|[(_ & b & e & _ & ->)|
        [(_ & b & one & ->)|[(_ & b & infos & one & _ & _ & ->)|
         (cfg & b & infos & one & infos1 & w1 & _ & _ & Hw1 & ->)]]]]]];
    cbn [snd trace init].
  - constructor.
  - repeat constructor.
  - repeat constructor; unfold in_order; simpl; lia.
  - apply calls_to_fetch_in_order.
  - apply calls_to_fetch_in_order.
  - apply sanitized_in_order.
  - destruct (tail_run cmd (GetFlagString cmd "as-template") infos1 one
                (OutputVersion cmd (Version cfg)) w1)
      as (t & -> & Hsorted & Hphase & _).
    cbn [trace].
    assert (StronglySorted in_order (trace w1)
            ∧ Forall (λ c, phase c ≤ 4) (trace w1)) as [Hs1 Hle1].
    { destruct Hw1 as [(_ & _ & ->)|(_ & _ & _ & ->)]; cbn [trace].
      - destruct (calls_to_fetch_in_order b (Ok (infos, one))) as [? Hle].
        split; [done|].
        eapply list.Forall_impl; [exact Hle|]. intros c Hc. simpl in Hc. lia.
      - apply sanitized_in_order. }
    apply (in_order_app 4); [done..|].
    eapply list.Forall_impl; [exact Hphase|]. intros c Hc. simpl in Hc. lia.
Qed.

End RunOrder.

Section RunOutcome.

Context {Obj Mapper Typer ClientMapper Printer : Type}.
Context {kube : Kube Obj Mapper Typer ClientMapper Printer}.

Local Abbreviation Factory := (Factory Mapper Typer ClientMapper).
Local Abbreviation Call := (Call Obj Mapper Typer ClientMapper Printer).
Local Abbreviation World := (World Obj Mapper Typer ClientMapper Printer).

Implicit Types (f : Factory) (exporter : Exporter Obj) (cmd : Command).
Implicit Types (w : World) (h : loc → Obj) (infos : list Info).
Implicit Types (t : list Call).

Lemma fetched_calls_to_fetch b ret t :
  fetched (calls_to_fetch (Obj := Obj) (Printer := Printer) b ret ++ t) =
    Some ret.
Proof. done. Qed.

Lemma aggregated_early t t' :
  Forall (λ c, phase c ≤ 4) t → aggregated (t ++ t') = aggregated t'.
Proof.
  induction 1 as [|c t Hc _ IH]; [done|].
  destruct c; simpl in Hc; try lia; exact IH.
Qed.

Lemma early_calls t c :
  Forall (λ c, phase c ≤ 4) t → c ∈ t →
  is_aggregation c = false ∧ is_output c = false.
Proof.
  rewrite Forall_forall. intros Hall Hin. specialize (Hall _ Hin).
  destruct c; simpl in Hall; try lia; done.
Qed.

Lemma late_calls t c :
  Forall (λ c, 5 ≤ phase c) t → c ∈ t → is_CallExport c = false.
Proof.
  rewrite Forall_forall. intros Hall Hin. specialize (Hall _ Hin).
  destruct c; simpl in Hall; try lia; done.
Qed.

(** The calls a run has made when it reaches the aggregation. *)
Lemma reached_aggregation exact b infos one infos1 w1 h1 h2 rs
    (raw : bool) :
  (raw = true ∧ infos1 = infos
   ∧ w1 = {| heap := h1;
             trace := calls_to_fetch (Obj := Obj) (Printer := Printer) b
                        (Ok (infos, one)) |})
  ∨ (raw = false ∧ failures rs = [] ∧ infos1 = select is_nil infos rs
     ∧ w1 = {| heap := h2;
               trace := calls_to_fetch b (Ok (infos, one))
                        ++ export_calls exact infos rs |}) →
  Forall (λ c, phase c ≤ 4) (trace w1)
  ∧ ∃ t, trace w1 = calls_to_fetch b (Ok (infos, one)) ++ t.
Proof.
  intros [(_ & _ & ->)|(_ & _ & _ & ->)]; cbn [trace]; split.
  - destruct (calls_to_fetch_in_order (Obj := Obj) (Printer := Printer)
                b (Ok (infos, one))) as [_ Hle].
    eapply list.Forall_impl; [exact Hle|]. intros c Hc. simpl in Hc. lia.
  - exists []. by rewrite app_nil_r.
  - apply sanitized_in_order.
  - by eexists.
Qed.

(** X2.  A run succeeds exactly when it reached the printer and the
    printer returned no error.  The printing is then the last call of the
    run, made with the printer that [GetPrinter] returned for the chosen
    output format and the template file. *)
Theorem success_iff_printed f exporter cmd args filenames h :
  let out := RunExport f exporter cmd args filenames (init h) in
  (out.1 = Ok tt ↔
   ∃ p result,
     CallPrintObj p result ∈ trace out.2 ∧ PrintObj p result = None)
  ∧ ∀ p result,
      CallPrintObj p result ∈ trace out.2 →
      list.last (trace out.2) = Some (CallPrintObj p result)
      ∧ GetPrinter
          (if (String.length (GetFlagString cmd "output") =? 0)%nat
           then if (String.length (GetFlagString cmd "template") =? 0)%nat
                then "yaml" else "template"
           else GetFlagString cmd "output")
          (GetFlagString cmd "template") = Ok p.
Proof.
  intros out. subst out.
  destruct (RunExport_stages f exporter cmd args filenames h)
    as [[_ ->]|[(_ & e & _ & ->)|[(_ & e & _ & ->)|[(_ & b & e & _ & ->)|
        [(_ & b & one & ->)|[(_ & b & infos & one & _ & _ & ->)|
         (cfg & b & infos & one & infos1 & w1 & _ & _ & Hw1 & ->)]]]]]];
    cbn [fst snd trace init].
  1-5: split; [split; [done|intros (p & r & Hin & _)]|intros p r Hin];
       unfold calls_to_fetch in Hin; list_cases Hin.
  - assert (∀ p r, CallPrintObj p r ∉
              calls_to_fetch (Obj := Obj) (Printer := Printer) b
                (Ok (infos, one))
              ++ export_calls (GetFlagBool cmd "exact") infos
                   (Export_results exporter (GetFlagBool cmd "exact") infos h))
      as Hnot.
    { intros p r Hin.
      by destruct (early_calls _ _
                     (proj2 (sanitized_in_order b _ _ _ _)) Hin). }
    split; [split; [done|intros (p & r & Hin & _)]|intros p r Hin];
      by apply Hnot in Hin.
  - destruct (reached_aggregation _ _ _ _ _ _ _ _ _ _ Hw1) as [Hearly _].
    destruct (tail_run cmd (GetFlagString cmd "as-template") infos1 one
                (OutputVersion cmd (Version cfg)) w1)
      as (t & Hout & _ & _ & _ & _ & Hok & Hlast & _).
    rewrite Hout. cbn [trace].
    assert (∀ p r, CallPrintObj p r ∈ trace w1 ++ t ↔ CallPrintObj p r ∈ t)
      as Hin.
    { intros p r. rewrite elem_of_app. split; [|by right].
      intros [Hin|Hin]; [|done].
      by destruct (early_calls _ _ Hearly Hin). }
    split.
    + rewrite Hok. by setoid_rewrite Hin.
    + intros p r Hp. apply Hin in Hp. destruct (Hlast p r Hp) as [Hl Hg].
      split; [|done]. by rewrite last_app, Hl.
Qed.

End RunOutcome.

Section RunEffects.

Context {Obj Mapper Typer ClientMapper Printer : Type}.
Context {kube : Kube Obj Mapper Typer ClientMapper Printer}.

Local Abbreviation Factory := (Factory Mapper Typer ClientMapper).
Local Abbreviation Call := (Call Obj Mapper Typer ClientMapper Printer).
Local Abbreviation World := (World Obj Mapper Typer ClientMapper Printer).

Implicit Types (f : Factory) (exporter : Exporter Obj) (cmd : Command).
Implicit Types (w : World) (h : loc → Obj) (infos : list Info).
Implicit Types (t : list Call).

Lemma heap_after_frame exporter exact infos h l :
  l ∉ Object <$> infos → heap_after exporter exact infos h l = h l.
Proof.
  revert h. induction infos as [|info infos IH]; intros h Hl; [done|].
  simpl in *. apply not_elem_of_cons in Hl as [Hne Hl].
  rewrite IH by done. by rewrite fn_lookup_insert_ne.
Qed.

Lemma Object_inj info info' : Object info = Object info' → info = info'.
Proof. destruct info, info'. simpl. by intros ->. Qed.

Lemma heap_after_distinct exporter exact infos h info :
  NoDup infos → info ∈ infos →
  heap_after exporter exact infos h (Object info) =
    (Export exporter (h (Object info)) exact).1.
Proof.
  intros Hnd. revert h.
  induction Hnd as [|info0 infos Hnotin Hnd IH]; intros h Hin;
    [by apply elem_of_nil in Hin|].
  simpl. apply elem_of_cons in Hin as [->|Hin].
  - rewrite heap_after_frame; [by rewrite fn_lookup_insert|].
    intros (info' & Heq & Hin')%list_elem_of_fmap.
    apply Object_inj in Heq as ->. done.
  - rewrite IH by done. rewrite fn_lookup_insert_ne; [done|].
    intros Heq%Object_inj. by subst.
Qed.

(** X3.  A run changes no object but the fetched ones, and none at all
    under [--raw]: an object whose state differs after the run was fetched
    by this run, and the run was not raw. *)
Theorem only_fetched_objects_change f exporter cmd args filenames h l :
  let out := RunExport f exporter cmd args filenames (init h) in
  heap out.2 l ≠ h l →
  GetFlagBool cmd "raw" = false
  ∧ ∃ infos one,
      fetched (trace out.2) = Some (Ok (infos, one))
      ∧ l ∈ Object <$> infos.
Proof.
  intros out. subst out.
  destruct (RunExport_stages f exporter cmd args filenames h)
    as [[_ ->]|[(_ & e & _ & ->)|[(_ & e & _ & ->)|[(_ & b & e & _ & ->)|
        [(_ & b & one & ->)|[(Hraw & b & infos & one & _ & _ & ->)|
         (cfg & b & infos & one & infos1 & w1 & _ & _ & Hw1 & ->)]]]]]];
    cbn [fst snd heap trace init]; try done.
  - intros Hl. split; [done|]. exists infos, one. split; [done|].
    destruct (decide (l ∈ Object <$> infos)) as [|Hnotin]; [done|].
    by rewrite heap_after_frame in Hl.
  - destruct (tail_run cmd (GetFlagString cmd "as-template") infos1 one
                (OutputVersion cmd (Version cfg)) w1) as (t & -> & _).
    cbn [heap trace].
    destruct Hw1 as [(_ & _ & ->)|(Hraw & _ & _ & ->)]; cbn [heap trace];
      [done|].
    intros Hl. split; [done|]. exists infos, one.
    split; [by rewrite <- app_assoc|].
    destruct (decide (l ∈ Object <$> infos)) as [|Hnotin]; [done|].
    by rewrite heap_after_frame in Hl.
Qed.

(** X4.  Without [--raw], when the fetched infos are pairwise distinct,
    every fetched object is left as the exporter made it, whether it was
    kept, skipped or failed, and whether the run then succeeds or fails:
    the sanitize pass works in place and nothing is rolled back. *)
Theorem fetched_objects_sanitized_in_place f exporter cmd args filenames h
    infos one info :
  let out := RunExport f exporter cmd args filenames (init h) in
  GetFlagBool cmd "raw" = false →
  fetched (trace out.2) = Some (Ok (infos, one)) →
  NoDup infos → info ∈ infos →
  heap out.2 (Object info) =
    (Export exporter (h (Object info)) (GetFlagBool cmd "exact")).1.
Proof.
  intros out Hraw Hfetched Hnd Hin. subst out.
  destruct (RunExport_stages f exporter cmd args filenames h)
    as [[_ Hout]|[(_ & e & _ & Hout)|[(_ & e & _ & Hout)|
        [(_ & b & e & _ & Hout)|[(_ & b & one' & Hout)|
         [(_ & b & infos' & one' & _ & _ & Hout)|
          (cfg & b & infos' & one' & infos1 & w1 & _ & _ & Hw1 & Hout)]]]]]];
    rewrite Hout in Hfetched |- *; cbn [fst snd heap trace init] in *;
    try done.
  - unfold fetched, calls_to_fetch in Hfetched. simpl in Hfetched.
    simplify_eq. by apply elem_of_nil in Hin.
  - rewrite fetched_calls_to_fetch in Hfetched. simplify_eq.
    by apply heap_after_distinct.
  - destruct (tail_run cmd (GetFlagString cmd "as-template") infos1 one'
                (OutputVersion cmd (Version cfg)) w1) as (t & Hw & _).
    rewrite Hw in Hfetched |- *. cbn [heap trace] in *.
    destruct Hw1 as [(Hraw' & _)|(_ & _ & _ & ->)]; [congruence|].
    cbn [heap trace] in *.
    rewrite <- app_assoc, fetched_calls_to_fetch in Hfetched. simplify_eq.
    by apply heap_after_distinct.
Qed.

(** X5.  An error of the client configuration or of the namespace lookup
    is returned as it is; no builder is made, nothing is fetched, and no
    object is touched. *)
Theorem config_errors_pass_through f exporter cmd args filenames h e :
  let out := RunExport f exporter cmd args filenames (init h) in
  GetFlagBool cmd "exact" && GetFlagBool cmd "raw" = false →
  ClientConfig f = Err e
  ∨ (∃ cfg, ClientConfig f = Ok cfg) ∧ DefaultNamespace f = Err e →
  out.1 = Err e
  ∧ heap out.2 = h
  ∧ Forall (λ c, phase c ≤ 1) (trace out.2).
Proof.
  intros out Hflags Hfail. subst out. unfold RunExport. rewrite Hflags.
  cbv beta iota zeta delta [bind log lift fail ret init].
  cbn [heap trace app].
  destruct Hfail as [-> | [[cfg ->] ->]]; cbn [fst snd heap trace];
    repeat split; repeat constructor; simpl; lia.
Qed.

(** X6.  An error of the fetch is returned as it is; no object is touched
    and nothing is exported, aggregated or printed. *)
Theorem fetch_error_passes_through f exporter cmd args filenames h e :
  let out := RunExport f exporter cmd args filenames (init h) in
  fetched (trace out.2) = Some (Err e) →
  out.1 = Err e
  ∧ heap out.2 = h
  ∧ Forall (λ c, phase c ≤ 3) (trace out.2).
Proof.
  intros out Hfetched. subst out.
  destruct (RunExport_stages f exporter cmd args filenames h)
    as [[_ Hout]|[(_ & e' & _ & Hout)|[(_ & e' & _ & Hout)|
        [(_ & b & e' & _ & Hout)|[(_ & b & one' & Hout)|
         [(_ & b & infos' & one' & _ & _ & Hout)|
          (cfg & b & infos' & one' & infos1 & w1 & _ & _ & Hw1 & Hout)]]]]]];
    rewrite Hout in Hfetched |- *; cbn [fst snd heap trace init] in *;
    try done.
  - unfold fetched, calls_to_fetch in Hfetched. simpl in Hfetched.
    simplify_eq. repeat split. apply calls_to_fetch_in_order.
  - destruct (tail_run cmd (GetFlagString cmd "as-template") infos1 one'
                (OutputVersion cmd (Version cfg)) w1) as (t & Hw & _).
    rewrite Hw in Hfetched. cbn [heap trace] in *.
    destruct (reached_aggregation _ _ _ _ _ _ _ _ _ _ Hw1)
      as [_ [t' Ht']].
    rewrite Ht', <- app_assoc, fetched_calls_to_fetch in Hfetched.
    simplify_eq.
Qed.

End RunEffects.

Section RunAggregation.

Context {Obj Mapper Typer ClientMapper Printer : Type}.
Context {kube : Kube Obj Mapper Typer ClientMapper Printer}.

Local Abbreviation Factory := (Factory Mapper Typer ClientMapper).
Local Abbreviation Call := (Call Obj Mapper Typer ClientMapper Printer).
Local Abbreviation World := (World Obj Mapper Typer ClientMapper Printer).

Implicit Types (f : Factory) (exporter : Exporter Obj) (cmd : Command).
Implicit Types (w : World) (h : loc → Obj) (infos : list Info).
Implicit Types (t : list Call).

Lemma select_sublist keep infos rs : select keep infos rs `sublist_of` infos.
Proof.
  revert rs. induction infos as [|info infos IH]; intros [|r rs];
    try apply sublist_nil_l.
  rewrite select_cons. destruct (keep r); simpl.
  - by apply sublist_skip.
  - by apply sublist_cons.
Qed.

Lemma select_all_skipped infos rs :
  Forall (λ r, is_skip r = true) rs → select is_nil infos rs = [].
Proof.
  intros Hall. revert infos.
  induction Hall as [|r rs Hr _ IH]; intros [|info infos]; try done.
  rewrite select_cons, IH. by destruct r.
Qed.

Lemma failures_all_skipped rs :
  Forall (λ r, is_skip r = true) rs → failures rs = [].
Proof.
  intros Hall. apply failures_nil_iff.
  eapply list.Forall_impl; [exact Hall|].
  intros [err|]; simpl; [|done]. by intros ->.
Qed.

(** X7.  The version conversion of line 148 is only ever applied to a
    template that bears the name given with [--as-template], which is then
    not empty; when it fails, its error is the result of the run and
    nothing is printed. *)
Theorem only_templates_converted f exporter cmd args filenames h o version :
  let out := RunExport f exporter cmd args filenames (init h) in
  CallConvertToVersion o version ∈ trace out.2 →
  (∃ objects, o = Template (GetFlagString cmd "as-template") objects)
  ∧ GetFlagString cmd "as-template" ≠ EmptyString
  ∧ ∀ e, ConvertToVersion o version = Err e →
         out.1 = Err e ∧ Forall (λ c, is_output c = false) (trace out.2).
Proof.
  intros out. subst out.
  destruct (RunExport_stages f exporter cmd args filenames h)
    as [[_ ->]|[(_ & e & _ & ->)|[(_ & e & _ & ->)|[(_ & b & e & _ & ->)|
        [(_ & b & one & ->)|[(_ & b & infos & one & _ & _ & ->)|
         (cfg & b & infos & one & infos1 & w1 & _ & _ & Hw1 & ->)]]]]]];
    cbn [fst snd trace init].
  1-5: intros Hin; unfold calls_to_fetch in Hin; list_cases Hin.
  - intros Hin.
    by destruct (early_calls _ _ (proj2 (sanitized_in_order b _ _ _ _)) Hin).
  - destruct (reached_aggregation _ _ _ _ _ _ _ _ _ _ Hw1) as [Hearly _].
    destruct (tail_run cmd (GetFlagString cmd "as-template") infos1 one
                (OutputVersion cmd (Version cfg)) w1)
      as (t & Hout & _ & _ & _ & _ & _ & _ & Hconv & _).
    rewrite Hout. cbn [trace]. rewrite elem_of_app. intros [Hin|Hin].
    { by destruct (early_calls _ _ Hearly Hin). }
    destruct (Hconv o version Hin) as (Hobjects & Hname & Hfail).
    split; [done|]. split; [done|]. intros e He.
    destruct (Hfail e He) as [Hres Hno]. split; [done|].
    apply Forall_app. split; [|done].
    rewrite Forall_forall. intros c Hc.
    by destruct (early_calls _ _ Hearly Hc).
Qed.

(** X8.  The check for an empty result comes before the sanitize pass:
    when documents were fetched and every one of them is skipped, the run
    does not stop; each document gets its [Export] call and the
    aggregation is entered with the empty collection. *)
Theorem all_skipped_is_not_empty f exporter cmd args filenames h infos one :
  let exact := GetFlagBool cmd "exact" in
  let out := RunExport f exporter cmd args filenames (init h) in
  let rs := Export_results exporter exact infos h in
  GetFlagBool cmd "raw" = false →
  fetched (trace out.2) = Some (Ok (infos, one)) →
  infos ≠ [] →
  Forall (λ r, is_skip r = true) rs →
  aggregated (trace out.2) = Some []
  ∧ filter (λ c, is_CallExport c = true) (trace out.2) =
      export_calls exact infos rs.
Proof.
  intros exact out rs Hraw Hfetched Hne Hskip. subst exact out rs.
  pose proof (failures_all_skipped _ Hskip) as Hnofail.
  destruct (RunExport_stages f exporter cmd args filenames h)
    as [[_ Hout]|[(_ & e & _ & Hout)|[(_ & e & _ & Hout)|
        [(_ & b & e & _ & Hout)|[(_ & b & one' & Hout)|
         [(_ & b & infos' & one' & _ & Hfail & Hout)|
          (cfg & b & infos' & one' & infos1 & w1 & _ & _ & Hw1 & Hout)]]]]]];
    rewrite Hout in Hfetched |- *; cbn [fst snd heap trace init] in *;
    try done.
  - unfold fetched, calls_to_fetch in Hfetched. simpl in Hfetched.
    by simplify_eq.
  - rewrite fetched_calls_to_fetch in Hfetched. by simplify_eq.
  - destruct (tail_run cmd (GetFlagString cmd "as-template") infos1 one'
                (OutputVersion cmd (Version cfg)) w1)
      as (t & Hw & _ & Hlate & Hagg & _).
    rewrite Hw in Hfetched |- *. cbn [heap trace] in *.
    destruct Hw1 as [(Hraw' & _)|(_ & _ & -> & ->)]; [congruence|].
    cbn [heap trace] in *.
    rewrite <- app_assoc, fetched_calls_to_fetch in Hfetched. simplify_eq.
    split.
    + rewrite aggregated_early by apply sanitized_in_order.
      by rewrite Hagg, select_all_skipped.
    + rewrite !list.filter_app.
      rewrite (filter_none is_CallExport (calls_to_fetch _ _))
        by by repeat constructor.
      rewrite (filter_all is_CallExport (export_calls _ _ _))
        by apply export_calls_Forall.
      rewrite (filter_none is_CallExport t); [by rewrite app_nil_r|].
      rewrite Forall_forall. intros c Hc. by eapply late_calls.
Qed.

(** X9.  The collection handed to the aggregation is always a sublist of
    the fetched one: the run may drop documents, but it never reorders,
    repeats or adds any. *)
Theorem aggregated_sublist_of_fetched f exporter cmd args filenames h
    infos one survivors :
  let out := RunExport f exporter cmd args filenames (init h) in
  fetched (trace out.2) = Some (Ok (infos, one)) →
  aggregated (trace out.2) = Some survivors →
  survivors `sublist_of` infos.
Proof.
  intros out Hfetched Hagg. subst out.
  destruct (RunExport_stages f exporter cmd args filenames h)
    as [[_ Hout]|[(_ & e & _ & Hout)|[(_ & e & _ & Hout)|
        [(_ & b & e & _ & Hout)|[(_ & b & one' & Hout)|
         [(_ & b & infos' & one' & _ & Hfail & Hout)|
          (cfg & b & infos' & one' & infos1 & w1 & _ & _ & Hw1 & Hout)]]]]]];
    rewrite Hout in Hfetched, Hagg; cbn [fst snd heap trace init] in *;
    try done.
  - rewrite <- (app_nil_r (_ ++ _)) in Hagg.
    by rewrite aggregated_early in Hagg by apply sanitized_in_order.
  - destruct (reached_aggregation _ _ _ _ _ _ _ _ _ _ Hw1)
      as [Hearly [t' Ht']].
    destruct (tail_run cmd (GetFlagString cmd "as-template") infos1 one'
                (OutputVersion cmd (Version cfg)) w1)
      as (t & Hw & _ & _ & Haggt & _).
    rewrite Hw in Hfetched, Hagg. cbn [heap trace] in *.
    rewrite aggregated_early, Haggt in Hagg by done.
    rewrite Ht', <- app_assoc, fetched_calls_to_fetch in Hfetched.
    simplify_eq.
    destruct Hw1 as [(_ & -> & _)|(_ & _ & -> & _)]; [done|].
    apply select_sublist.
Qed.

(** X10.  Every conversion of a run targets one and the same API version:
    [OutputVersion cmd] of the version of the client configuration. *)
Theorem one_output_version f exporter cmd args filenames h cfg :
  let out := RunExport f exporter cmd args filenames (init h) in
  ClientConfig f = Ok cfg →
  Forall (λ c, is_aggregation c = true →
               call_version c = Some (OutputVersion cmd (Version cfg)))
    (trace out.2).
Proof.
  intros out Hcfg. subst out.
  destruct (RunExport_stages f exporter cmd args filenames h)
    as [[_ ->]|[(_ & e & _ & ->)|[(_ & e & _ & ->)|[(_ & b & e & _ & ->)|
        [(_ & b & one & ->)|[(_ & b & infos & one & _ & _ & ->)|
         (cfg' & b & infos & one & infos1 & w1 & Hcfg' & _ & Hw1 & ->)]]]]]];
    cbn [fst snd trace init].
  1-5: by repeat constructor.
  - rewrite Forall_forall. intros c Hc.
    by destruct (early_calls _ _ (proj2 (sanitized_in_order b _ _ _ _)) Hc)
      as [-> _].
  - destruct (reached_aggregation _ _ _ _ _ _ _ _ _ _ Hw1) as [Hearly _].
    destruct (tail_run cmd (GetFlagString cmd "as-template") infos1 one
                (OutputVersion cmd (Version cfg')) w1)
      as (t & -> & _ & _ & _ & Hversion & _).
    cbn [trace]. rewrite Hcfg in Hcfg'. injection Hcfg' as <-.
    apply Forall_app. split; [|done].
    rewrite Forall_forall. intros c Hc.
    by destruct (early_calls _ _ Hearly Hc) as [-> _].
Qed.

(** The flags a run reads are not touched by [with_all]. *)
Lemma GetFlagBool_with_all all cmd flag :
  flag ≠ "all" → GetFlagBool (with_all all cmd) flag = GetFlagBool cmd flag.
Proof.
  intros Hne. unfold GetFlagBool, with_all. simpl.
  by rewrite lookup_insert_ne.
Qed.

(** X11.  The deprecated flag [--all] is ignored: giving it any value
    changes neither the result of the run nor any of its calls. *)
Theorem all_flag_ignored f exporter cmd args filenames w all :
  RunExport f exporter (with_all all cmd) args filenames w =
    RunExport f exporter cmd args filenames w.
Proof.
  unfold RunExport, print, OutputVersion.
  rewrite !GetFlagBool_with_all by done.
  reflexivity.
Qed.

(** X17.  With a template name, whatever reaches the printer is what the
    version conversion returned for the template: nothing is printed that
    did not go through that conversion. *)
Theorem printed_template_is_converted f exporter cmd args filenames h p
    result :
  let out := RunExport f exporter cmd args filenames (init h) in
  let asTemplate := GetFlagString cmd "as-template" in
  CallPrintObj p result ∈ trace out.2 →
  asTemplate ≠ EmptyString →
  ∃ objects version,
    CallConvertToVersion (Template asTemplate objects) version
      ∈ trace out.2
    ∧ ConvertToVersion (Template asTemplate objects) version = Ok result.
Proof.
  intros out asTemplate. subst out asTemplate.
  destruct (RunExport_stages f exporter cmd args filenames h)
    as [[_ ->]|[(_ & e & _ & ->)|[(_ & e & _ & ->)|[(_ & b & e & _ & ->)|
        [(_ & b & one & ->)|[(_ & b & infos & one & _ & _ & ->)|
         (cfg & b & infos & one & infos1 & w1 & _ & _ & Hw1 & ->)]]]]]];
    cbn [fst snd trace init].
  1-5: intros Hin; unfold calls_to_fetch in Hin; list_cases Hin.
  - intros Hin.
    by destruct (early_calls _ _ (proj2 (sanitized_in_order b _ _ _ _)) Hin).
  - destruct (reached_aggregation _ _ _ _ _ _ _ _ _ _ Hw1) as [Hearly _].
    destruct (tail_run cmd (GetFlagString cmd "as-template") infos1 one
                (OutputVersion cmd (Version cfg)) w1)
      as (t & Hout & _ & _ & _ & _ & _ & _ & _ & Hprinted).
    rewrite Hout. cbn [trace]. rewrite elem_of_app. intros [Hin|Hin] Hname.
    { by destruct (early_calls _ _ Hearly Hin). }
    destruct (Hprinted p result Hin Hname) as (objects & Hconv & Hres).
    exists objects, (OutputVersion cmd (Version cfg)).
    split; [|done]. apply elem_of_app. by right.
Qed.

End RunAggregation.

(* ===================================================================== *)
(** * The sanitize pass inside a run *)

Section PassClaims.

Context {Obj Mapper Typer ClientMapper Printer : Type}.
Context {kube : Kube Obj Mapper Typer ClientMapper Printer}.

Local Abbreviation Factory := (Factory Mapper Typer ClientMapper).
Local Abbreviation Call := (Call Obj Mapper Typer ClientMapper Printer).
Local Abbreviation World := (World Obj Mapper Typer ClientMapper Printer).

Implicit Types (f : Factory) (exporter : Exporter Obj) (cmd : Command).
Implicit Types (w : World) (h : loc → Obj) (infos : list Info).
Implicit Types (t : list Call) (rs : list (option error)).

(** The [Export] calls of a run without [--raw] are those of the pass over
    the fetched infos. *)
Lemma exports_of_run f exporter cmd args filenames h infos one :
  let exact := GetFlagBool cmd "exact" in
  let out := RunExport f exporter cmd args filenames (init h) in
  let rs := Export_results exporter exact infos h in
  GetFlagBool cmd "raw" = false →
  fetched (trace out.2) = Some (Ok (infos, one)) →
  filter (λ c, is_CallExport c = true) (trace out.2) =
    export_calls exact infos rs.
Proof.
  intros exact out rs Hraw Hfetched. subst exact out rs.
  assert (∀ b ret, filter (λ c : Call, is_CallExport c = true)
                     (calls_to_fetch b ret) = []) as Hpre.
  { intros b ret. apply (filter_none is_CallExport). by repeat constructor. }
  destruct (RunExport_stages f exporter cmd args filenames h)
    as [[_ Hout]|[(_ & e & _ & Hout)|[(_ & e & _ & Hout)|
        [(_ & b & e & _ & Hout)|[(_ & b & one' & Hout)|
         [(_ & b & infos' & one' & _ & Hfail & Hout)|
          (cfg & b & infos' & one' & infos1 & w1 & _ & _ & Hw1 & Hout)]]]]]];
    rewrite Hout in Hfetched |- *; cbn [fst snd heap trace init] in *;
    try done.
  - unfold fetched, calls_to_fetch in Hfetched. simpl in Hfetched.
    simplify_eq. apply Hpre.
  - rewrite fetched_calls_to_fetch in Hfetched. simplify_eq.
    rewrite list.filter_app, Hpre.
    apply (filter_all is_CallExport), export_calls_Forall.
  - destruct (tail_run cmd (GetFlagString cmd "as-template") infos1 one'
                (OutputVersion cmd (Version cfg)) w1)
      as (t & Hw & _ & Hlate & _).
    rewrite Hw in Hfetched |- *. cbn [heap trace] in *.
    destruct Hw1 as [(Hraw' & _)|(_ & _ & _ & ->)]; [congruence|].
    cbn [heap trace] in *.
    rewrite <- app_assoc, fetched_calls_to_fetch in Hfetched. simplify_eq.
    rewrite !list.filter_app, Hpre.
    rewrite (filter_all is_CallExport (export_calls _ _ _))
      by apply export_calls_Forall.
    rewrite (filter_none is_CallExport t); [by rewrite app_nil_r|].
    rewrite Forall_forall. intros c Hc. by eapply late_calls.
Qed.

(** What a run without [--raw] makes of a non-empty fetch: without failure
    the aggregation receives the documents whose call returned nil; with a
    failure there is no aggregation and the run returns the aggregate of
    the failures. *)
Lemma aggregation_of_run f exporter cmd args filenames h infos one :
  let exact := GetFlagBool cmd "exact" in
  let out := RunExport f exporter cmd args filenames (init h) in
  let rs := Export_results exporter exact infos h in
  GetFlagBool cmd "raw" = false →
  fetched (trace out.2) = Some (Ok (infos, one)) →
  infos ≠ [] →
  (failures rs = [] → aggregated (trace out.2) = Some (select is_nil infos rs))
  ∧ (failures rs ≠ [] →
     aggregated (trace out.2) = None
     ∧ out.1 = Err (Aggregate (failures rs))).
Proof.
  intros exact out rs Hraw Hfetched Hne. subst exact out rs.
  destruct (RunExport_stages f exporter cmd args filenames h)
    as [[_ Hout]|[(_ & e & _ & Hout)|[(_ & e & _ & Hout)|
        [(_ & b & e & _ & Hout)|[(_ & b & one' & Hout)|
         [(_ & b & infos' & one' & _ & Hfail & Hout)|
          (cfg & b & infos' & one' & infos1 & w1 & _ & _ & Hw1 & Hout)]]]]]];
    rewrite Hout in Hfetched |- *; cbn [fst snd heap trace init] in *;
    try done.
  - unfold fetched, calls_to_fetch in Hfetched. simpl in Hfetched.
    by simplify_eq.
  - rewrite fetched_calls_to_fetch in Hfetched. simplify_eq.
    split; [done|]. intros _. split; [|done].
    rewrite <- (app_nil_r (_ ++ _)).
    by rewrite aggregated_early by apply sanitized_in_order.
  - destruct (tail_run cmd (GetFlagString cmd "as-template") infos1 one'
                (OutputVersion cmd (Version cfg)) w1)
      as (t & Hw & _ & _ & Hagg & _).
    rewrite Hw in Hfetched |- *. cbn [heap trace] in *.
    destruct Hw1 as [(Hraw' & _)|(_ & Hnofail & -> & ->)]; [congruence|].
    cbn [heap trace] in *.
    rewrite <- app_assoc, fetched_calls_to_fetch in Hfetched. simplify_eq.
    split; [|done]. intros _.
    by rewrite aggregated_early by apply sanitized_in_order.
Qed.

(** Leaving out an entry whose call had an outcome that is not kept changes
    nothing in the selection. *)
Lemma select_delete keep infos rs i r :
  is_Some (infos !! i) → rs !! i = Some r → keep r = false →
  select keep infos rs = select keep (delete i infos) (delete i rs).
Proof.
  revert rs i. induction infos as [|info infos IH]; intros [|r' rs] [|i];
    try (by intros [? ?]); try done.
  - intros _ [= ->] Hkeep. rewrite select_cons, Hkeep. done.
  - intros Hi Hr Hkeep. simpl in Hi, Hr. cbn [delete list_delete].
    rewrite !select_cons. f_equal. by eapply IH.
Qed.

Lemma failures_delete rs i r :
  rs !! i = Some r → failure r = None → failures (delete i rs) = failures rs.
Proof.
  revert i. induction rs as [|r' rs IH]; intros [|i]; try done.
  - intros [= ->] Hr. cbn [delete list_delete].
    by rewrite failures_cons, Hr.
  - intros Hi Hr. simpl in Hi. cbn [delete list_delete].
    rewrite !failures_cons. f_equal. by eapply IH.
Qed.

(** C2, as amended.  In a run without [--raw] on a non-empty fetch, the
    slice the loop builds receives every fetched document whose call did
    not return the skip signal, a document whose call failed included.  It
    replaces the fetched collection only when no call failed: the
    aggregation is then entered with exactly the documents whose call
    returned nil, in fetch order.  When a call failed, nothing is handed to
    the aggregation and the run ends in the aggregate error. *)
Theorem surviving_collection f exporter cmd args filenames h infos one :
  let exact := GetFlagBool cmd "exact" in
  let out := RunExport f exporter cmd args filenames (init h) in
  let rs := Export_results exporter exact infos h in
  GetFlagBool cmd "raw" = false →
  fetched (trace out.2) = Some (Ok (infos, one)) →
  infos ≠ [] →
  (∀ w, heap w = h →
        (sanitize_loop exporter exact infos ([], []) w).1 =
          Ok (select (λ r, negb (is_skip r)) infos rs, failures rs))
  ∧ (failures rs = [] →
     aggregated (trace out.2) = Some (select is_nil infos rs))
  ∧ (failures rs ≠ [] →
     aggregated (trace out.2) = None
     ∧ out.1 = Err (Aggregate (failures rs))).
Proof.
  intros exact out rs Hraw Hfetched Hne. split.
  - intros w <-. by rewrite sanitize_loop_run.
  - by apply (aggregation_of_run f exporter cmd args filenames h infos one).
Qed.

(** C5.  In a run without [--raw], a fetched document whose [Export] call
    returns the skip signal is not in the aggregated result: whatever
    collection reaches the aggregation is the one the run would hand on
    had the entry of that document not been fetched, it is shorter than the
    fetched one, and the document is not a member of it when each call made
    on it returned the skip signal.  The skip adds nothing to the collected
    errors, which alone decide whether the run fails with their aggregate or
    enters the aggregation; and the pass goes on: every fetched document
    gets its call, in fetch order. *)
Theorem skipped_document_dropped f exporter cmd args filenames h infos one
    i info :
  let exact := GetFlagBool cmd "exact" in
  let out := RunExport f exporter cmd args filenames (init h) in
  let rs := Export_results exporter exact infos h in
  GetFlagBool cmd "raw" = false →
  fetched (trace out.2) = Some (Ok (infos, one)) →
  infos !! i = Some info →
  rs !! i = Some (Some ErrExportOmit) →
  (∀ survivors,
     aggregated (trace out.2) = Some survivors →
     survivors = select is_nil (delete i infos) (delete i rs)
     ∧ length survivors < length infos
     ∧ ((∀ j, infos !! j = Some info → rs !! j = Some (Some ErrExportOmit)) →
        info ∉ survivors))
  ∧ failures rs = failures (delete i rs)
  ∧ (ErrExportOmit ∉ failures rs)
  ∧ (failures rs = [] →
     aggregated (trace out.2) = Some (select is_nil infos rs))
  ∧ (failures rs ≠ [] → out.1 = Err (Aggregate (failures rs)))
  ∧ filter (λ c, is_CallExport c = true) (trace out.2) =
      export_calls exact infos rs
  ∧ length rs = length infos.
Proof.
  intros exact out rs Hraw Hfetched Hi Hr.
  assert (infos ≠ []) as Hne by (by destruct infos).
  destruct (aggregation_of_run f exporter cmd args filenames h infos one
              Hraw Hfetched Hne) as [Hok Hfail].
  fold exact out rs in Hok, Hfail.
  split; [|split; [|split; [|split; [|split; [|split]]]]].
  - intros survivors Hagg.
    assert (survivors = select is_nil infos rs) as ->.
    { destruct (failures rs) as [|e errs] eqn:Hf.
      - rewrite Hok in Hagg by done. by injection Hagg.
      - destruct Hfail as [Hnone _]; [done|]. by rewrite Hnone in Hagg. }
    split; [apply (select_delete is_nil infos rs i (Some ErrExportOmit));
            eauto|].
    split.
    + rewrite (select_delete is_nil infos rs i (Some ErrExportOmit))
        by eauto.
      eapply Nat.le_lt_trans; [apply sublist_length, select_sublist|].
      rewrite length_delete by eauto.
      apply lookup_lt_Some in Hi. lia.
    + intros Hall Hin.
      apply select_elem_of in Hin as (j & r & Hj & Hrj & Hkeep).
      rewrite (Hall j Hj) in Hrj. by simplify_eq.
  - symmetry. by apply (failures_delete rs i (Some ErrExportOmit)).
  - rewrite failures_elem_of. by intros [_ ?].
  - exact Hok.
  - intros Hf. by destruct (Hfail Hf).
  - by apply (exports_of_run f exporter cmd args filenames h infos one).
  - apply Export_results_length.
Qed.

(** The calls of a pass over pairwise distinct infos, written out. *)
Lemma export_calls_distinct exporter exact infos h :
  NoDup infos →
  export_calls (Obj := Obj) (Mapper := Mapper) (Typer := Typer)
    (ClientMapper := ClientMapper) (Printer := Printer) exact infos
    (Export_results exporter exact infos h) =
    (λ info, CallExport (Object info) exact
               (Export exporter (h (Object info)) exact).2) <$> infos.
Proof.
  intros Hnd. rewrite Export_results_distinct by done.
  unfold export_calls. clear Hnd.
  induction infos as [|info infos IH]; [done|]. simpl. f_equal. exact IH.
Qed.

(** X18.  When the fetched infos are pairwise distinct, the [Export] calls
    of a run without [--raw] do not influence one another: the run makes
    one call per fetched document, in fetch order, and each returns what
    the exporter returns on that document as it was fetched. *)
Theorem export_calls_independent f exporter cmd args filenames h infos one :
  let exact := GetFlagBool cmd "exact" in
  let out := RunExport f exporter cmd args filenames (init h) in
  GetFlagBool cmd "raw" = false →
  fetched (trace out.2) = Some (Ok (infos, one)) →
  NoDup infos →
  filter (λ c, is_CallExport c = true) (trace out.2) =
    (λ info, CallExport (Object info) exact
               (Export exporter (h (Object info)) exact).2) <$> infos.
Proof.
  intros exact out Hraw Hfetched Hnd. subst exact out.
  rewrite (exports_of_run f exporter cmd args filenames h infos one)
    by done.
  by apply export_calls_distinct.
Qed.

End PassClaims.

(* ===================================================================== *)
(** * The helpers of crd_publish_openapi.go *)

(** Case analysis on the hypotheses, then equational reasoning. *)
Ltac outcome_cases :=
  simpl; unfold not; repeat split; intros;
  repeat match goal with
         | H : _ ∨ _ |- _ => destruct H
         | H : ∃ _, _ |- _ => destruct H
         | H : _ ∧ _ |- _ => destruct H
         end;
  simplify_eq; try done; try congruence; eauto 10.

Section CRDFacts.

Import CRD.

Context {Property Extension Rest : Type}.

Local Abbreviation Schema := (Schema Property Extension Rest).
Local Abbreviation Server := (Server Property Extension Rest).

Implicit Types (s d expect : Schema) (name lastMsg : string).

Lemma dropDefaults_Properties s k :
  Properties (dropDefaults s) !! k =
    if bool_decide (k ∈ ["metadata"; "apiVersion"; "kind"]) then None
    else Properties s !! k.
Proof.
  simpl. rewrite !lookup_delete. case_bool_decide as Hin.
  - destruct (decide ("kind" = k)); [done|].
    destruct (decide ("apiVersion" = k)); [done|].
    destruct (decide ("metadata" = k)); [done|].
    list_cases Hin.
  - destruct (decide ("kind" = k)) as [<-|];
      [destruct Hin; do 2 apply list_elem_of_further;
       apply list_elem_of_here|].
    destruct (decide ("apiVersion" = k)) as [<-|];
      [destruct Hin; apply list_elem_of_further, list_elem_of_here|].
    destruct (decide ("metadata" = k)) as [<-|];
      [destruct Hin; apply list_elem_of_here|]. done.
Qed.

Lemma dropDefaults_Extensions s k :
  Extensions (dropDefaults s) !! k =
    if bool_decide (k = "x-kubernetes-group-version-kind") then None
    else Extensions s !! k.
Proof.
  simpl. rewrite lookup_delete. case_bool_decide as Heq.
  - by destruct (decide (_ = k)).
  - destruct (decide (_ = k)); [by subst|done].
Qed.

(** X12.  [dropDefaults] removes the properties "metadata", "apiVersion"
    and "kind" and the extension "x-kubernetes-group-version-kind", and
    nothing else: every other property and extension keeps its value, and
    the rest of the schema is unchanged. *)
Theorem dropDefaults_removes_exactly s :
  (∀ k, Properties (dropDefaults s) !! k =
        if bool_decide (k ∈ ["metadata"; "apiVersion"; "kind"]) then None
        else Properties s !! k)
  ∧ (∀ k, Extensions (dropDefaults s) !! k =
          if bool_decide (k = "x-kubernetes-group-version-kind") then None
          else Extensions s !! k)
  ∧ rest (dropDefaults s) = rest s.
Proof.
  split; [apply dropDefaults_Properties|].
  split; [apply dropDefaults_Extensions|done].
Qed.

(** X13.  [dropDefaults] is idempotent, and it leaves a schema as it is
    exactly when the schema has none of the three properties and not the
    extension. *)
Theorem dropDefaults_fixpoint s :
  dropDefaults (dropDefaults s) = dropDefaults s
  ∧ (dropDefaults s = s ↔
     Properties s !! "metadata" = None
     ∧ Properties s !! "apiVersion" = None
     ∧ Properties s !! "kind" = None
     ∧ Extensions s !! "x-kubernetes-group-version-kind" = None).
Proof.
  assert (∀ s',
    Properties s' !! "metadata" = None
    ∧ Properties s' !! "apiVersion" = None
    ∧ Properties s' !! "kind" = None
    ∧ Extensions s' !! "x-kubernetes-group-version-kind" = None →
    dropDefaults s' = s') as Hfix.
  { intros [ps es r] (Hm & Ha & Hk & He). unfold dropDefaults. simpl in *.
    by rewrite (delete_id ps "metadata"), (delete_id ps "apiVersion"),
      (delete_id ps "kind"), (delete_id es _). }
  split; [|split; [|apply Hfix]].
  - apply Hfix. by rewrite !dropDefaults_Properties, dropDefaults_Extensions.
  - intros <-. by rewrite !dropDefaults_Properties, dropDefaults_Extensions.
Qed.

(** X14.  The condition polled by [waitForDefinition] reports an error
    exactly when the request or the decoding of its answer fails, and then
    reports that very error; it answers true exactly when the definition is
    served and, once the defaults are dropped, is semantically equal to the
    expected schema.  A missing or a different definition is no error: the
    answer is false, for the poll to go on, and only then is [lastMsg]
    assigned. *)
Theorem definition_served_outcomes `{Server} name expect lastMsg :
  let out := definition_served name expect lastMsg in
  (∀ e, out.1.2 = Some e ↔
        DoRaw = Err e ∨ ∃ bs, DoRaw = Ok bs ∧ Unmarshal bs = Err e)
  ∧ (out.1.1 = true ↔
     ∃ bs spec d,
       DoRaw = Ok bs ∧ Unmarshal bs = Ok spec
       ∧ Definitions spec !! name = Some d
       ∧ DeepEqual expect (dropDefaults d) = true)
  ∧ (out.1.1 = true → out.1.2 = None)
  ∧ (out.2 ≠ lastMsg → out.1 = (false, None)).
Proof.
  intros out. subst out. unfold definition_served.
  destruct DoRaw as [bs|e0]; [|outcome_cases].
  destruct (Unmarshal bs) as [spec|e0] eqn:Hu; [|outcome_cases].
  destruct (Definitions spec !! name) as [d|] eqn:Hd; [|outcome_cases].
  destruct (DeepEqual expect (dropDefaults d)) eqn:Heq; outcome_cases.
Qed.

(** X15.  The verdict of that condition does not depend on the defaults
    the server adds: two servers whose definitions of [name] agree once the
    defaults are dropped get the same answer. *)
Theorem definition_served_ignores_defaults (S1 S2 : Server) name expect
    lastMsg bs1 bs2 spec1 spec2 d1 d2 :
  @DoRaw _ _ _ S1 = Ok bs1 → @Unmarshal _ _ _ S1 bs1 = Ok spec1 →
  @DoRaw _ _ _ S2 = Ok bs2 → @Unmarshal _ _ _ S2 bs2 = Ok spec2 →
  Definitions spec1 !! name = Some d1 →
  Definitions spec2 !! name = Some d2 →
  @DeepEqual _ _ _ S1 = @DeepEqual _ _ _ S2 →
  @format_v _ _ _ S1 = @format_v _ _ _ S2 →
  dropDefaults d1 = dropDefaults d2 →
  @definition_served _ _ _ S1 name expect lastMsg =
    @definition_served _ _ _ S2 name expect lastMsg.
Proof.
  intros Hr1 Hu1 Hr2 Hu2 Hd1 Hd2 Heq Hfmt Hdrop. unfold definition_served.
  by rewrite Hr1, Hu1, Hd1, Hr2, Hu2, Hd2, Heq, Hfmt, Hdrop.
Qed.

(** X16.  On one answer of the server, the condition polled by
    [waitForDefinitionCleanup] answers true exactly when the answer decodes
    and holds no definition of [name]; it reports the same errors as the
    condition polled by [waitForDefinition], and the two conditions are
    never both true. *)
Theorem definition_removed_outcomes `{Server} name expect lastMsg lastMsg' :
  let removed := definition_removed name lastMsg in
  let served := definition_served name expect lastMsg' in
  (removed.1.1 = true ↔
   ∃ bs spec, DoRaw = Ok bs ∧ Unmarshal bs = Ok spec
              ∧ Definitions spec !! name = None)
  ∧ removed.1.2 = served.1.2
  ∧ ¬ (removed.1.1 = true ∧ served.1.1 = true)
  ∧ (removed.2 ≠ lastMsg → removed.1 = (false, None)).
Proof.
  intros removed served. subst removed served.
  unfold definition_removed, definition_served.
  destruct DoRaw as [bs|e0]; [|outcome_cases].
  destruct (Unmarshal bs) as [spec|e0] eqn:Hu; [|outcome_cases].
  destruct (Definitions spec !! name) as [d|] eqn:Hd; [|outcome_cases].
  destruct (DeepEqual expect (dropDefaults d)); outcome_cases.
Qed.

End CRDFacts.

(* ===================================================================== *)
(** * These properties on the small cluster *)

(** X3 on [export svc/a]: the service changes, and it was fetched. *)
Lemma only_fetched_objects_change_run :
  heap (Demo.run Demo.plain ["svc/a"]).2 1%positive ≠ Demo.cluster 1%positive
  ∧ GetFlagBool Demo.plain "raw" = false
  ∧ ∃ infos one,
      fetched (trace (Demo.run Demo.plain ["svc/a"]).2) =
        Some (Ok (infos, one))
      ∧ 1%positive ∈ Object <$> infos.
Proof.
  assert (heap (Demo.run Demo.plain ["svc/a"]).2 1%positive
          ≠ Demo.cluster 1%positive) as Hchanged.
  { vm_compute. discriminate. }
  split; [exact Hchanged|].
  exact (only_fetched_objects_change (kube := Demo.kube) Demo.factory
           Demo.exporter Demo.plain ["svc/a"] [] Demo.cluster 1%positive
           Hchanged).
Defined.

(** X4 on [export broken,svc]: the run fails on the two broken objects,
    and the service between them is left sanitized all the same. *)
Lemma fetched_objects_sanitized_in_place_run :
  GetFlagBool Demo.plain "raw" = false
  ∧ fetched (trace (Demo.run Demo.plain ["broken,svc"]).2) =
      Some (Ok ([Demo.info 3; Demo.info 1; Demo.info 4], false))
  ∧ NoDup [Demo.info 3; Demo.info 1; Demo.info 4]
  ∧ Demo.info 1 ∈ [Demo.info 3; Demo.info 1; Demo.info 4]
  ∧ heap (Demo.run Demo.plain ["broken,svc"]).2 1%positive =
      (Export Demo.exporter (Demo.cluster 1%positive)
         (GetFlagBool Demo.plain "exact")).1.
Proof.
  assert (NoDup [Demo.info 3; Demo.info 1; Demo.info 4]) as Hnd.
  { apply (bool_decide_unpack _). vm_compute. exact I. }
  assert (Demo.info 1 ∈ [Demo.info 3; Demo.info 1; Demo.info 4]) as Hin.
  { apply list_elem_of_further, list_elem_of_here. }
  split; [vm_compute; reflexivity|]. split; [vm_compute; reflexivity|].
  split; [exact Hnd|]. split; [exact Hin|].
  apply (fetched_objects_sanitized_in_place (kube := Demo.kube) Demo.factory
           Demo.exporter Demo.plain ["broken,svc"] [] Demo.cluster
           [Demo.info 3; Demo.info 1; Demo.info 4] false (Demo.info 1));
    [vm_compute; reflexivity| vm_compute; reflexivity|exact Hnd|exact Hin].
Defined.

(** X5 on a factory without client configuration. *)
Lemma config_errors_pass_through_run :
  GetFlagBool Demo.plain "exact" && GetFlagBool Demo.plain "raw" = false
  ∧ ClientConfig Scenario.no_config = Err (Errorf "no configuration")
  ∧ (RunExport (kube := Demo.kube) Scenario.no_config Demo.exporter
       Demo.plain ["svc/a"] [] (init Demo.cluster)).1 =
      Err (Errorf "no configuration")
  ∧ heap (RunExport (kube := Demo.kube) Scenario.no_config Demo.exporter
            Demo.plain ["svc/a"] [] (init Demo.cluster)).2 = Demo.cluster
  ∧ Forall (λ c, phase c ≤ 1)
      (trace (RunExport (kube := Demo.kube) Scenario.no_config Demo.exporter
                Demo.plain ["svc/a"] [] (init Demo.cluster)).2).
Proof.
  split; [vm_compute; reflexivity|]. split; [reflexivity|].
  apply (config_errors_pass_through (kube := Demo.kube) Scenario.no_config
           Demo.exporter Demo.plain ["svc/a"] [] Demo.cluster
           (Errorf "no configuration")).
  - vm_compute; reflexivity.
  - left; reflexivity.
Defined.

(** X6 on [export forbidden], a selection the cluster refuses. *)
Lemma fetch_error_passes_through_run :
  fetched (trace (Demo.run Demo.plain ["forbidden"]).2) =
    Some (Err (Errorf "forbidden"))
  ∧ (Demo.run Demo.plain ["forbidden"]).1 = Err (Errorf "forbidden")
  ∧ heap (Demo.run Demo.plain ["forbidden"]).2 = Demo.cluster
  ∧ Forall (λ c, phase c ≤ 3) (trace (Demo.run Demo.plain ["forbidden"]).2).
Proof.
  split; [vm_compute; reflexivity|].
  apply (fetch_error_passes_through (kube := Demo.kube) Demo.factory
           Demo.exporter Demo.plain ["forbidden"] [] Demo.cluster
           (Errorf "forbidden")).
  vm_compute; reflexivity.
Defined.

(** X7 on [export --as-template=x svc]. *)
Lemma only_templates_converted_run :
  CallConvertToVersion
    (Template "x" [Resource Scenario.exported_service]) "v1"
    ∈ trace (Demo.run Scenario.as_template ["svc"]).2
  ∧ (∃ objects,
       Template "x" [Resource Scenario.exported_service] =
         Template (GetFlagString Scenario.as_template "as-template") objects)
  ∧ GetFlagString Scenario.as_template "as-template" ≠ EmptyString.
Proof.
  assert (CallConvertToVersion
            (Template "x" [Resource Scenario.exported_service]) "v1"
            ∈ trace (Demo.run Scenario.as_template ["svc"]).2) as Hin.
  { vm_compute. do 6 apply list_elem_of_further. apply list_elem_of_here. }
  split; [exact Hin|].
  destruct (only_templates_converted (kube := Demo.kube) Demo.factory
              Demo.exporter Scenario.as_template ["svc"] [] Demo.cluster
              _ _ Hin) as (Hobjects & Hname & _).
  split; [exact Hobjects|exact Hname].
Defined.

(** X8 on a cluster where only the token secret is found. *)
Lemma all_skipped_is_not_empty_run :
  GetFlagBool Demo.plain "raw" = false
  ∧ fetched
      (trace (RunExport (kube := Scenario.only_secrets) Demo.factory
                Demo.exporter Demo.plain ["secret"] [] (init Demo.cluster)).2)
      = Some (Ok ([Demo.info 2], false))
  ∧ [Demo.info 2] ≠ []
  ∧ Forall (λ r, is_skip r = true)
      (Export_results Demo.exporter (GetFlagBool Demo.plain "exact")
         [Demo.info 2] Demo.cluster)
  ∧ aggregated
      (trace (RunExport (kube := Scenario.only_secrets) Demo.factory
                Demo.exporter Demo.plain ["secret"] [] (init Demo.cluster)).2)
      = Some [].
Proof.
  assert (Forall (λ r, is_skip r = true)
            (Export_results Demo.exporter (GetFlagBool Demo.plain "exact")
               [Demo.info 2] Demo.cluster)) as Hskip.
  { vm_compute. repeat constructor. }
  split; [vm_compute; reflexivity|]. split; [vm_compute; reflexivity|].
  split; [discriminate|]. split; [exact Hskip|].
  apply (all_skipped_is_not_empty (kube := Scenario.only_secrets)
           Demo.factory Demo.exporter Demo.plain ["secret"] [] Demo.cluster
           [Demo.info 2] false);
    [vm_compute; reflexivity|vm_compute; reflexivity|discriminate
    |exact Hskip].
Defined.

(** X9 on [export svc,secret,cm]: the service and the config map go on. *)
Lemma aggregated_sublist_of_fetched_run :
  fetched (trace (Demo.run Demo.plain ["svc,secret,cm"]).2) =
    Some (Ok ([Demo.info 1; Demo.info 2; Demo.info 5], false))
  ∧ aggregated (trace (Demo.run Demo.plain ["svc,secret,cm"]).2) =
      Some [Demo.info 1; Demo.info 5]
  ∧ [Demo.info 1; Demo.info 5]
      `sublist_of` [Demo.info 1; Demo.info 2; Demo.info 5].
Proof.
  split; [vm_compute; reflexivity|]. split; [vm_compute; reflexivity|].
  apply (aggregated_sublist_of_fetched (kube := Demo.kube) Demo.factory
           Demo.exporter Demo.plain ["svc,secret,cm"] [] Demo.cluster
           [Demo.info 1; Demo.info 2; Demo.info 5] false);
    vm_compute; reflexivity.
Defined.

(** X10 on [export --as-template=x svc]: both conversions target "v1". *)
Lemma one_output_version_run :
  ClientConfig Demo.factory = Ok {| Version := "v1" |}
  ∧ Forall (λ c, is_aggregation c = true →
                 call_version c =
                   Some (OutputVersion Scenario.as_template "v1"))
      (trace (Demo.run Scenario.as_template ["svc"]).2).
Proof.
  split; [reflexivity|].
  apply (one_output_version (kube := Demo.kube) Demo.factory Demo.exporter
           Scenario.as_template ["svc"] [] Demo.cluster
           {| Version := "v1" |}).
  reflexivity.
Defined.

(** X15 on a server that adds the defaults and one that does not. *)
Lemma definition_served_ignores_defaults_run :
  CRD.dropDefaults CRD.served_foo = CRD.dropDefaults CRD.foo
  ∧ CRD.definition_served (H := CRD.serving {[ "foo" := CRD.served_foo ]})
      "foo" CRD.foo EmptyString =
    CRD.definition_served (H := CRD.serving {[ "foo" := CRD.foo ]})
      "foo" CRD.foo EmptyString.
Proof.
  assert (CRD.dropDefaults CRD.served_foo = CRD.dropDefaults CRD.foo)
    as Hdrop by (vm_compute; reflexivity).
  split; [exact Hdrop|].
  apply (definition_served_ignores_defaults
           (CRD.serving {[ "foo" := CRD.served_foo ]})
           (CRD.serving {[ "foo" := CRD.foo ]})
           "foo" CRD.foo EmptyString [] []
           {| CRD.Definitions := {[ "foo" := CRD.served_foo ]} |}
           {| CRD.Definitions := {[ "foo" := CRD.foo ]} |}
           CRD.served_foo CRD.foo);
    try reflexivity; exact Hdrop.
Defined.

(** The condition on the served document: the defaults are dropped before
    the comparison, so the document matches the schema as it was given. *)
Example served_foo_matches :
  CRD.definition_served (H := CRD.serving {[ "foo" := CRD.served_foo ]})
    "foo" CRD.foo EmptyString = ((true, None), EmptyString)
  ∧ CRD.definition_removed (H := CRD.serving {[ "foo" := CRD.served_foo ]})
      "foo" EmptyString =
      ((false, None),
       "spec.SwaggerProps.Definitions[" +:+ CRD.dquote +:+ "foo"
       +:+ CRD.dquote +:+ "] still exists").
Proof. split; vm_compute; reflexivity. Qed.

(** X17 on [export --as-template=x svc]. *)
Lemma printed_template_is_converted_run :
  CallPrintObj "yaml" (Template "x" [Resource Scenario.exported_service])
    ∈ trace (Demo.run Scenario.as_template ["svc"]).2
  ∧ GetFlagString Scenario.as_template "as-template" ≠ EmptyString
  ∧ ∃ objects version,
      CallConvertToVersion
        (Template (GetFlagString Scenario.as_template "as-template") objects)
        version ∈ trace (Demo.run Scenario.as_template ["svc"]).2
      ∧ Demo.kube.(ConvertToVersion)
          (Template (GetFlagString Scenario.as_template "as-template")
             objects) version =
          Ok (Template "x" [Resource Scenario.exported_service]).
Proof.
  assert (CallPrintObj "yaml"
            (Template "x" [Resource Scenario.exported_service])
            ∈ trace (Demo.run Scenario.as_template ["svc"]).2) as Hin.
  { vm_compute. do 8 apply list_elem_of_further. apply list_elem_of_here. }
  assert (GetFlagString Scenario.as_template "as-template" ≠ EmptyString)
    as Hname by (vm_compute; discriminate).
  split; [exact Hin|]. split; [exact Hname|].
  exact (printed_template_is_converted (kube := Demo.kube) Demo.factory
           Demo.exporter Scenario.as_template ["svc"] [] Demo.cluster
           _ _ Hin Hname).
Defined.

(** X1 on [export svc,secret,cm]. *)
Lemma calls_in_order_run :
  StronglySorted in_order (trace (Demo.run Demo.plain ["svc,secret,cm"]).2).
Proof.
  exact (calls_in_order (kube := Demo.kube) Demo.factory Demo.exporter
           Demo.plain ["svc,secret,cm"] [] Demo.cluster).
Defined.

(** X2 on [export svc/a]: the service was printed, so the run succeeds. *)
Lemma success_iff_printed_run :
  (Demo.run Demo.plain ["svc/a"]).1 = Ok tt.
Proof.
  apply (proj1 (success_iff_printed (kube := Demo.kube) Demo.factory
                  Demo.exporter Demo.plain ["svc/a"] [] Demo.cluster)).
  exists "yaml", (Resource Scenario.exported_service).
  split; [|reflexivity].
  vm_compute. do 7 apply list_elem_of_further. apply list_elem_of_here.
Defined.

(** X11 on [export --all svc/a]. *)
Lemma all_flag_ignored_run :
  RunExport (kube := Demo.kube) Demo.factory Demo.exporter
    (with_all true Demo.plain) ["svc/a"] [] Demo.world =
    Demo.run Demo.plain ["svc/a"].
Proof.
  exact (all_flag_ignored (kube := Demo.kube) Demo.factory Demo.exporter
           Demo.plain ["svc/a"] [] Demo.world true).
Defined.

(** X12 and X13 on the served document and on the schema as given. *)
Lemma dropDefaults_removes_exactly_run :
  CRD.Properties (CRD.dropDefaults CRD.served_foo) !! "kind" = None
  ∧ CRD.Properties (CRD.dropDefaults CRD.served_foo) !! "spec" =
      Some "object".
Proof.
  destruct (dropDefaults_removes_exactly CRD.served_foo) as (Hp & _ & _).
  split; rewrite Hp; vm_compute; reflexivity.
Defined.

Lemma dropDefaults_fixpoint_run : CRD.dropDefaults CRD.foo = CRD.foo.
Proof.
  apply (proj2 (dropDefaults_fixpoint CRD.foo)).
  repeat split; vm_compute; reflexivity.
Defined.

(** X14 and X16 on a server that serves no definition at all. *)
Lemma definition_served_outcomes_run :
  (CRD.definition_served (H := CRD.serving ∅) "foo" CRD.foo
     EmptyString).1.1 ≠ true.
Proof.
  intros Htrue.
  apply (proj1 (proj2 (definition_served_outcomes (H := CRD.serving ∅)
                         "foo" CRD.foo EmptyString))) in Htrue
    as (bs & spec & d & _ & Hu & Hd & _).
  injection Hu as <-. vm_compute in Hd. discriminate.
Defined.

Lemma definition_removed_outcomes_run :
  (CRD.definition_removed (H := CRD.serving ∅) "foo" EmptyString).1.1 = true.
Proof.
  apply (proj1 (definition_removed_outcomes (H := CRD.serving ∅)
                  "foo" CRD.foo EmptyString EmptyString)).
  exists [], {| CRD.Definitions := ∅ |}. repeat split.
Defined.

(* ===================================================================== *)
(** * The sanitize pass inside a run, on the small cluster *)

(** C2, as amended, on [export broken,svc]: the two broken objects are
    appended by the loop like the service, and since they failed nothing
    reaches the aggregation.  On [export svc,secret,cm] no call fails, and
    the aggregation receives the service and the config map. *)
Lemma surviving_collection_run :
  GetFlagBool Demo.plain "raw" = false
  ∧ fetched (trace (Demo.run Demo.plain ["broken,svc"]).2) =
      Some (Ok ([Demo.info 3; Demo.info 1; Demo.info 4], false))
  ∧ [Demo.info 3; Demo.info 1; Demo.info 4] ≠ []
  ∧ (sanitize_loop Demo.exporter false
       [Demo.info 3; Demo.info 1; Demo.info 4] ([], []) Demo.world).1 =
      Ok ([Demo.info 3; Demo.info 1; Demo.info 4],
          [Errorf "cannot export b1"; Errorf "cannot export b2"])
  ∧ aggregated (trace (Demo.run Demo.plain ["broken,svc"]).2) = None
  ∧ (Demo.run Demo.plain ["broken,svc"]).1 =
      Err (Aggregate [Errorf "cannot export b1"; Errorf "cannot export b2"])
  ∧ fetched (trace (Demo.run Demo.plain ["svc,secret,cm"]).2) =
      Some (Ok ([Demo.info 1; Demo.info 2; Demo.info 5], false))
  ∧ aggregated (trace (Demo.run Demo.plain ["svc,secret,cm"]).2) =
      Some [Demo.info 1; Demo.info 5].
Proof.
  assert (GetFlagBool Demo.plain "raw" = false) as Hraw
    by (vm_compute; reflexivity).
  assert (fetched (trace (Demo.run Demo.plain ["svc,secret,cm"]).2) =
            Some (Ok ([Demo.info 1; Demo.info 2; Demo.info 5], false)))
    as Hfetched' by (vm_compute; reflexivity).
  assert ([Demo.info 1; Demo.info 2; Demo.info 5] ≠ []) as Hne'
    by discriminate.
  assert (fetched (trace (Demo.run Demo.plain ["broken,svc"]).2) =
            Some (Ok ([Demo.info 3; Demo.info 1; Demo.info 4], false)))
    as Hfetched by (vm_compute; reflexivity).
  assert ([Demo.info 3; Demo.info 1; Demo.info 4] ≠ []) as Hne
    by discriminate.
  split; [exact Hraw|]. split; [exact Hfetched|]. split; [exact Hne|].
  destruct (surviving_collection (kube := Demo.kube) Demo.factory
              Demo.exporter Demo.plain ["broken,svc"] [] Demo.cluster
              [Demo.info 3; Demo.info 1; Demo.info 4] false
              Hraw Hfetched Hne) as (Hloop & _ & Hfail).
  split; [exact (Hloop Demo.world eq_refl)|].
  destruct Hfail as [Hnone Herr]; [vm_compute; discriminate|].
  split; [exact Hnone|]. split; [exact Herr|]. split; [exact Hfetched'|].
  destruct (surviving_collection (kube := Demo.kube) Demo.factory
              Demo.exporter Demo.plain ["svc,secret,cm"] [] Demo.cluster
              [Demo.info 1; Demo.info 2; Demo.info 5] false
              Hraw Hfetched' Hne') as (_ & Hok & _).
  apply Hok. vm_compute. reflexivity.
Defined.

(** C5 on [export svc,secret,cm]: the token secret is skipped, the service
    and the config map reach the aggregation, and all three documents get
    their call. *)
Lemma skipped_document_dropped_run :
  GetFlagBool Demo.plain "raw" = false
  ∧ fetched (trace (Demo.run Demo.plain ["svc,secret,cm"]).2) =
      Some (Ok ([Demo.info 1; Demo.info 2; Demo.info 5], false))
  ∧ [Demo.info 1; Demo.info 2; Demo.info 5] !! 1 = Some (Demo.info 2)
  ∧ Export_results Demo.exporter (GetFlagBool Demo.plain "exact")
      [Demo.info 1; Demo.info 2; Demo.info 5] Demo.cluster !! 1 =
      Some (Some ErrExportOmit)
  ∧ aggregated (trace (Demo.run Demo.plain ["svc,secret,cm"]).2) =
      Some [Demo.info 1; Demo.info 5]
  ∧ (Demo.info 2 ∉ [Demo.info 1; Demo.info 5])
  ∧ filter (λ c, is_CallExport c = true)
      (trace (Demo.run Demo.plain ["svc,secret,cm"]).2) =
      [CallExport 1%positive false None;
       CallExport 2%positive false (Some ErrExportOmit);
       CallExport 5%positive false None].
Proof.
  assert (GetFlagBool Demo.plain "raw" = false) as Hraw
    by (vm_compute; reflexivity).
  assert (fetched (trace (Demo.run Demo.plain ["svc,secret,cm"]).2) =
            Some (Ok ([Demo.info 1; Demo.info 2; Demo.info 5], false)))
    as Hfetched by (vm_compute; reflexivity).
  assert (∀ j, [Demo.info 1; Demo.info 2; Demo.info 5] !! j =
                 Some (Demo.info 2) →
               Export_results Demo.exporter (GetFlagBool Demo.plain "exact")
                 [Demo.info 1; Demo.info 2; Demo.info 5] Demo.cluster !! j =
                 Some (Some ErrExportOmit)) as Hall.
  { intros [|[|[|j]]]; [discriminate|reflexivity|discriminate|discriminate]. }
  split; [exact Hraw|]. split; [exact Hfetched|].
  split; [reflexivity|]. split; [vm_compute; reflexivity|].
  destruct (skipped_document_dropped (kube := Demo.kube) Demo.factory
              Demo.exporter Demo.plain ["svc,secret,cm"] [] Demo.cluster
              [Demo.info 1; Demo.info 2; Demo.info 5] false 1 (Demo.info 2)
              Hraw Hfetched eq_refl eq_refl)
    as (Hdropped & _ & _ & Hok & _ & Hcalls & _).
  assert (aggregated (trace (Demo.run Demo.plain ["svc,secret,cm"]).2) =
            Some [Demo.info 1; Demo.info 5]) as Hagg.
  { apply Hok. vm_compute. reflexivity. }
  split; [exact Hagg|].
  split; [exact (proj2 (proj2 (Hdropped _ Hagg)) Hall)|].
  exact Hcalls.
Defined.

(** X18 on [export broken,svc]. *)
Lemma export_calls_independent_run :
  GetFlagBool Demo.plain "raw" = false
  ∧ fetched (trace (Demo.run Demo.plain ["broken,svc"]).2) =
      Some (Ok ([Demo.info 3; Demo.info 1; Demo.info 4], false))
  ∧ NoDup [Demo.info 3; Demo.info 1; Demo.info 4]
  ∧ filter (λ c, is_CallExport c = true)
      (trace (Demo.run Demo.plain ["broken,svc"]).2) =
      (λ info, CallExport (Object info) (GetFlagBool Demo.plain "exact")
                 (Export Demo.exporter (Demo.cluster (Object info))
                    (GetFlagBool Demo.plain "exact")).2)
        <$> [Demo.info 3; Demo.info 1; Demo.info 4].
Proof.
  assert (GetFlagBool Demo.plain "raw" = false) as Hraw
    by (vm_compute; reflexivity).
  assert (fetched (trace (Demo.run Demo.plain ["broken,svc"]).2) =
            Some (Ok ([Demo.info 3; Demo.info 1; Demo.info 4], false)))
    as Hfetched by (vm_compute; reflexivity).
  assert (NoDup [Demo.info 3; Demo.info 1; Demo.info 4]) as Hnd.
  { apply (bool_decide_unpack _). vm_compute. exact I. }
  split; [exact Hraw|]. split; [exact Hfetched|]. split; [exact Hnd|].
  exact (export_calls_independent (kube := Demo.kube) Demo.factory
           Demo.exporter Demo.plain ["broken,svc"] [] Demo.cluster
           [Demo.info 3; Demo.info 1; Demo.info 4] false
           Hraw Hfetched Hnd).
Defined.
